(** * EOS MCP server: the upstream client adapter, the tool registry and
      the REST routes, embedded from the TypeScript sources.

    - [src/types/index.ts]            error classes, envelopes
    - [src/services/eosApiService.ts] [EOSApiService], the Adapter
    - [src/mcp/tools.ts]              [MCPTools], the tool registry
    - [src/mcp/server.ts]             the tool-call dispatcher
    - [src/rest/server.ts]            [RestApiServer], the REST routes

    JavaScript values that travel as JSON are modelled by [jval]; the
    operators the code relies on ([||], [&&], [?.], property reads on
    [null]/[undefined], template literals and the ToString they apply)
    are written out.  An [await]ed call chain becomes a computation in a
    state-and-exception monad over the Adapter's token and a log of the
    calls made on its axios instance. *)

From Stdlib Require Import ZArith List String Ascii Bool Lia DecimalString.
Import ListNotations.
Set Warnings "-register-all".
Open Scope string_scope.
Open Scope Z_scope.

(* ================================================================== *)
(** ** JSON data and the JavaScript operators used by the code *)
(* ================================================================== *)

(** A JavaScript value that can come out of [JSON.parse] or be built by an
    object literal of the sources.  Numbers are the integers (status codes
    and lengths are the only numbers the code computes with), [JNum n]
    standing for the Number nearest to [n]; strings are Rocq strings,
    holding UTF-8; an object is its list of own members, first match wins
    on lookup. *)
Inductive jval : Type :=
| JUndefined
| JNull
| JBool (b : bool)
| JNum (n : Z)
| JStr (s : string)
| JArr (items : list jval)
| JObj (members : list (string * jval)).

Definition decimal (n : Z) : string := NilZero.string_of_int (Z.to_int n).

(** The Number nearest to a non-negative integer: the integer itself
    below 2^53, else the integer rounded to 53 significant bits, ties to
    even. *)
Definition nearest_double (n : Z) : Z :=
  if n <? 2 ^ 53 then n
  else
    let e := Z.log2 n - 52 in
    let q := Z.shiftr n e in
    let r := n - Z.shiftl q e in
    let half := Z.shiftl 1 (e - 1) in
    let q' := if (half <? r) || ((r =? half) && Z.odd q) then q + 1 else q in
    Z.shiftl q' e.

Definition digits (n : Z) : Z := Z.of_nat (String.length (decimal n)).

(** Number::toString picks the decimal with the fewest significant digits
    whose Number is [x], and the closest to [x] among those: tried with
    [k], [k + 1], ... digits. *)
Fixpoint shortest (fuel : nat) (k : Z) (x : Z) : Z :=
  match fuel with
  | O => x
  | S fuel' =>
      let step := 10 ^ (digits x - k) in
      let lo := (x / step) * step in
      let hi := lo + step in
      let lo_ok := nearest_double lo =? x in
      let hi_ok := nearest_double hi =? x in
      if lo_ok && hi_ok then
        if (x - lo <? hi - x) || ((x - lo =? hi - x) && Z.even (lo / step)) then lo else hi
      else if lo_ok then lo
      else if hi_ok then hi
      else shortest fuel' (k + 1) x
  end.

Fixpoint strip_zeros (s : string) : string :=
  match s with
  | String "0" rest => strip_zeros rest
  | _ => s
  end.

Fixpoint rev_onto (s acc : string) : string :=
  match s with
  | EmptyString => acc
  | String c rest => rev_onto rest (String c acc)
  end.

(** [d.ddde+n], as Number::toString writes an integer from 10^21 on. *)
Definition exponent_form (v : Z) : string :=
  match rev_onto (strip_zeros (rev_onto (decimal v) "")) "" with
  | EmptyString => "0"
  | String d EmptyString => String d ("e+" ++ decimal (digits v - 1))
  | String d more => String d ("." ++ more ++ "e+" ++ decimal (digits v - 1))
  end.

(** Number::toString on the Number nearest to [n]: plain decimal up to
    2^53, the shortest decimal that reads back as the same Number beyond,
    in exponent form from 10^21 on, [Infinity] from 2^1024 on. *)
Definition string_of_Z (n : Z) : string :=
  let x := nearest_double (Z.abs n) in
  let sign := if n <? 0 then "-" else "" in
  if x <? 2 ^ 53 then sign ++ decimal x
  else if 2 ^ 1024 <=? x then sign ++ "Infinity"
  else
    let v := shortest 17 1 x in
    sign ++ (if v <? 10 ^ 21 then decimal v else exponent_form v).

(** ToBoolean. *)
Definition truthy (v : jval) : bool :=
  match v with
  | JUndefined | JNull => false
  | JBool b => b
  | JNum n => negb (n =? 0)
  | JStr s => negb (s =? "")%string
  | JArr _ | JObj _ => true
  end.

Definition nullish (v : jval) : bool :=
  match v with
  | JUndefined | JNull => true
  | _ => false
  end.

(** [a || b] on already evaluated operands. *)
Definition js_or (a b : jval) : jval := if truthy a then a else b.

(** [!a]. *)
Definition js_not (a : jval) : bool := negb (truthy a).

(** Whether ToString throws on [v].  JSON data hold no function, so an
    object with a member of its own called [toString] has nothing to
    call: neither that member nor the inherited [valueOf] yields a
    primitive, and ToString raises a [TypeError].  An array throws when
    one of its items, other than [null] and [undefined], does. *)
Fixpoint to_string_throws (v : jval) : bool :=
  match v with
  | JArr items => existsb (fun x => negb (nullish x) && to_string_throws x) items
  | JObj members =>
      existsb (fun member : string * jval => (fst member =? "toString")%string) members
  | _ => false
  end.

(** The text ToString gives, as a template literal or the [Error]
    constructor applies it, when it gives one ([to_string] below puts the
    two together).  An array joins its items with commas, [null] and
    [undefined] items printing as nothing; an object prints through
    [Object.prototype.toString]. *)
Fixpoint js_to_string (v : jval) : string :=
  match v with
  | JUndefined => "undefined"
  | JNull => "null"
  | JBool true => "true"
  | JBool false => "false"
  | JNum n => string_of_Z n
  | JStr s => s
  | JArr items =>
      (fix join (l : list jval) : string :=
         match l with
         | [] => ""
         | x :: rest =>
             let shown := if nullish x then "" else js_to_string x in
             match rest with
             | [] => shown
             | _ :: _ => shown ++ "," ++ join rest
             end
         end) items
  | JObj _ => "[object Object]"
  end.

Fixpoint assoc (k : string) (members : list (string * jval)) : option jval :=
  match members with
  | [] => None
  | (k', v) :: rest => if (k =? k')%string then Some v else assoc k rest
  end.

(** Whether [v] is an object with an own member [k]. *)
Definition has_field (v : jval) (k : string) : bool :=
  match v with
  | JObj members => match assoc k members with Some _ => true | None => false end
  | _ => false
  end.

(* ================================================================== *)
(** ** Thrown values ([src/types/index.ts]) *)
(* ================================================================== *)

(** What axios resolves with. *)
Record AxiosResponse : Type := mkAxiosResponse {
  status : Z;
  data : jval
}.

(** What axios rejects with: the transport's own failure shape.
    [ax_response] is absent when no response arrived. *)
Record AxiosError : Type := mkAxiosError {
  ax_message : string;
  ax_response : option AxiosResponse
}.

(** The values the code throws or catches.  [EOSApiError] and [MCPError]
    are the two classes of [types/index.ts]; [Axios] wraps the
    transport's rejection; [TypeError] is what a property read on [null]
    or [undefined] raises. *)
Inductive exn : Type :=
| EOSApiError (message : string) (statusCode : Z) (response : jval)
| MCPError (message : string) (code : string) (details : jval)
| Axios (error : AxiosError)
| TypeError (message : string).

(** ToString: the text, or the [TypeError] (worded as V8 words it). *)
Definition to_string (v : jval) : string + exn :=
  if to_string_throws v
  then inr (TypeError "Cannot convert object to primitive value")
  else inl (js_to_string v).

(** [new EOSApiError(message, statusCode, response)]: [super(message)]
    turns the message into a string, and throws when that throws. *)
Definition new_EOSApiError (message : jval) (statusCode : Z) (response : jval) : exn :=
  match to_string message with
  | inl text => EOSApiError text statusCode response
  | inr thrown => thrown
  end.

Arguments to_string : simpl never.

Definition instanceof_EOSApiError (e : exn) : bool :=
  match e with
  | EOSApiError _ _ _ => true
  | _ => false
  end.

(** [error.message]. *)
Definition exn_message (e : exn) : jval :=
  match e with
  | EOSApiError m _ _ | MCPError m _ _ | TypeError m => JStr m
  | Axios error => JStr (ax_message error)
  end.

(** [error.statusCode]: only an [EOSApiError] has one. *)
Definition exn_statusCode (e : exn) : jval :=
  match e with
  | EOSApiError _ c _ => JNum c
  | _ => JUndefined
  end.

(** The [length] of a string: its number of UTF-16 code units, counted
    off the UTF-8 bytes (a continuation byte counts nothing, the lead
    byte of a four-byte sequence counts two). *)
Fixpoint utf16_length (s : string) : Z :=
  match s with
  | EmptyString => 0
  | String c rest =>
      let b := Z.of_nat (nat_of_ascii c) in
      (if b <? 128 then 1 else if b <? 192 then 0 else if b <? 240 then 1 else 2)
      + utf16_length rest
  end.

(** [v.k] for an evaluated [v]: a [TypeError] on [null] and [undefined]
    (worded as V8 words it), the own member of an object, [length] of an
    array or a string, and [undefined] otherwise (the code reads no index
    members). *)
Definition get_prop (v : jval) (k : string) : jval + exn :=
  match v with
  | JUndefined =>
      inr (TypeError ("Cannot read properties of undefined (reading '" ++ k ++ "')"))
  | JNull =>
      inr (TypeError ("Cannot read properties of null (reading '" ++ k ++ "')"))
  | JObj members =>
      inl (match assoc k members with Some x => x | None => JUndefined end)
  | JArr items =>
      inl (if (k =? "length")%string then JNum (Z.of_nat (List.length items)) else JUndefined)
  | JStr s =>
      inl (if (k =? "length")%string then JNum (utf16_length s) else JUndefined)
  | JBool _ | JNum _ => inl JUndefined
  end.

(** [v?.k]. *)
Definition opt_chain (v : jval) (k : string) : jval :=
  match get_prop v k with
  | inl x => x
  | inr _ => JUndefined
  end.

(* ================================================================== *)
(** ** The upstream service and the Adapter's state *)
(* ================================================================== *)

Inductive http_method : Type := GET | POST | PATCH | DELETE.

(** One outgoing request as it leaves the request interceptor: the path
    below the configured base URL, the JSON body ([JUndefined] when the
    call has none) and the [Authorization] header when one was set. *)
Record request : Type := mkRequest {
  req_method : http_method;
  req_url : string;
  req_data : jval;
  req_authorization : option string
}.

(** What the network gives back for one request: an HTTP response with
    its status and parsed body, or no response at all (connection error,
    or the request's timeout elapsing), with the transport's message. *)
Inductive outcome : Type :=
| Responded (st : Z) (body : jval)
| NoResponse (message : string).

(** The Adapter object: [private authToken: string | null = null]. *)
Record EOSApiService : Type := mkService {
  authToken : jval
}.

(** An Adapter together with the log of the calls made on its axios
    instance, oldest first: each request as it left the request
    interceptor, or as it was handed in when the interceptor threw and
    nothing was sent.  The log is instrumentation: the code never reads
    it. *)
Record world : Type := mkWorld {
  service : EOSApiService;
  calls : list request
}.

Definition new_EOSApiService : EOSApiService := mkService JNull.

(** A computation over the Adapter that returns or throws. *)
Definition M (A : Type) : Type := world -> (A + exn) * world.

Definition ret {A : Type} (a : A) : M A := fun w => (inl a, w).

Definition throw {A : Type} (e : exn) : M A := fun w => (inr e, w).

Definition bind {A B : Type} (m : M A) (k : A -> M B) : M B :=
  fun w =>
    match m w with
    | (inl a, w') => k a w'
    | (inr e, w') => (inr e, w')
    end.

(** [try { m } catch (error) { h error }]. *)
Definition try_catch {A : Type} (m : M A) (h : exn -> M A) : M A :=
  fun w =>
    match m w with
    | (inl a, w') => (inl a, w')
    | (inr e, w') => h e w'
    end.

(** An expression that may throw, evaluated in place. *)
Definition lift {A : Type} (r : A + exn) : M A := fun w => (r, w).

Declare Scope eos_scope.
Delimit Scope eos_scope with eos.
Notation "x <- m ;; k" := (bind m (fun x => k))
  (at level 100, m at next level, right associativity) : eos_scope.
Notation "m ;;; k" := (bind m (fun _ => k))
  (at level 100, right associativity) : eos_scope.
Open Scope eos_scope.

(* ================================================================== *)
(** ** [EOSApiService] ([src/services/eosApiService.ts]) *)
(* ================================================================== *)

Section Adapter.

(** The remote service: its answer to a request may depend on the
    requests it has received before. *)
Variable upstream : list request -> request -> outcome.

(** Request interceptor: adds the bearer header when a token is held.
    The template literal throws when the token has no text. *)
Definition request_interceptor (svc : EOSApiService) (config : request) : request + exn :=
  if truthy (authToken svc)
  then match to_string (authToken svc) with
       | inl text =>
           inl (mkRequest (req_method config) (req_url config) (req_data config)
                          (Some ("Bearer " ++ text)))
       | inr thrown => inr thrown
       end
  else inl config.

(** axios' default [validateStatus]. *)
Definition validateStatus (st : Z) : bool := (200 <=? st) && (st <? 300).

(** axios settling the request: a 2xx response resolves, every other
    response and every failure to get one rejects with an [AxiosError]. *)
Definition dispatch (o : outcome) : AxiosResponse + AxiosError :=
  match o with
  | Responded st body =>
      if validateStatus st
      then inl (mkAxiosResponse st body)
      else inr (mkAxiosError ("Request failed with status code " ++ string_of_Z st)
                             (Some (mkAxiosResponse st body)))
  | NoResponse message => inr (mkAxiosError message None)
  end.

(** Response interceptor, rejection side: what it throws. *)
Definition response_rejected (error : AxiosError) : exn :=
  match ax_response error with
  | Some response =>
      new_EOSApiError
        (js_or (opt_chain (data response) "message") (JStr "API request failed"))
        (status response)
        (data response)
  | None =>
      new_EOSApiError
        (js_or (JStr (ax_message error)) (JStr "Network error"))
        0
        JUndefined
  end.

(** The [message] of a thrown value, as a string. *)
Definition thrown_text (e : exn) : string :=
  match exn_message e with
  | JStr text => text
  | _ => ""
  end.

(** [this.api.<method>(url, data)] with both interceptors applied.  What
    the request interceptor throws goes down the promise chain to the
    rejection side of the response interceptor, which finds a [message]
    and no [response] on it; the request is not sent. *)
Definition api_request (method : http_method) (url : string) (body : jval) : M AxiosResponse :=
  fun w =>
    let config := mkRequest method url body None in
    match request_interceptor (service w) config with
    | inl config' =>
        let w' := mkWorld (service w) (calls w ++ [config']) in
        match dispatch (upstream (calls w) config') with
        | inl response => (inl response, w')
        | inr error => (inr (response_rejected error), w')
        end
    | inr thrown =>
        (inr (response_rejected (mkAxiosError (thrown_text thrown) None)),
         mkWorld (service w) (calls w ++ [config]))
    end.

Definition setAuthToken (token : jval) : M unit :=
  fun w => (inl tt, mkWorld (mkService token) (calls w)).

Definition clearAuthToken : M unit :=
  fun w => (inl tt, mkWorld (mkService JNull) (calls w)).

(** The [catch] block shared by the six calling methods. *)
Definition rethrow {A : Type} (fallback : string) (error : exn) : M A :=
  if instanceof_EOSApiError error
  then throw error
  else throw (EOSApiError fallback 500 JUndefined).

Definition login (credentials : jval) : M jval :=
  try_catch
    (response <- api_request POST "/user/login" credentials ;;
     success <- lift (get_prop (data response) "success") ;;
     carries <- (if truthy success
                 then d <- lift (get_prop (data response) "data") ;; ret (opt_chain d "token")
                 else ret success) ;;
     (if truthy carries
      then d <- lift (get_prop (data response) "data") ;;
           token <- lift (get_prop d "token") ;;
           setAuthToken token
      else ret tt) ;;;
     ret (data response))
    (rethrow "Login failed").

Definition getCurrentUser : M jval :=
  try_catch
    (response <- api_request GET "/user/profile" JUndefined ;;
     lift (get_prop (data response) "data"))
    (rethrow "Failed to get user profile").

Definition getUsers : M jval :=
  try_catch
    (response <- api_request GET "/users" JUndefined ;;
     d <- lift (get_prop (data response) "data") ;;
     ret (js_or d (JArr [])))
    (rethrow "Failed to get users").

Definition inviteUser (inviteData : jval) : M jval :=
  try_catch
    (response <- api_request POST "/users/invite" inviteData ;;
     ret (data response))
    (rethrow "Failed to invite user").

Definition updateUserStatus (userId : jval) (status : jval) : M jval :=
  try_catch
    (id <- lift (to_string userId) ;;
     response <- api_request PATCH ("/users/" ++ id ++ "/status")
                             (JObj [("status", status)]) ;;
     ret (data response))
    (rethrow "Failed to update user status").

Definition deleteUser (userId : jval) : M jval :=
  try_catch
    (id <- lift (to_string userId) ;;
     response <- api_request DELETE ("/users/" ++ id) JUndefined ;;
     ret (data response))
    (rethrow "Failed to delete user").

Definition healthCheck : M bool :=
  try_catch
    (api_request GET "/health" JUndefined ;;; ret true)
    (fun _ => ret false).

End Adapter.

(* ================================================================== *)
(** ** [MCPTools] ([src/mcp/tools.ts]) and the tool-call dispatcher *)
(* ================================================================== *)

(** [interface MCPTool]. *)
Record MCPTool : Type := mkTool {
  name : string;
  description : string;
  inputSchema : jval;
  handler : jval -> M jval
}.

(** The object literal every handler's [catch] block returns:
    [{ success: false, message: error.message || fallback,
       error: error.statusCode || 500 }]. *)
Definition failure (fallback : string) (error : exn) : jval :=
  JObj [("success", JBool false);
        ("message", js_or (exn_message error) (JStr fallback));
        ("error", js_or (exn_statusCode error) (JNum 500))].

(** [{ type: 'string', description }]. *)
Definition string_property (about : string) : jval :=
  JObj [("type", JStr "string"); ("description", JStr about)].

(** [{ type: 'string', description, enum }]. *)
Definition enum_property (about : string) (allowed : list string) : jval :=
  JObj [("type", JStr "string"); ("description", JStr about);
        ("enum", JArr (map JStr allowed))].

(** [{ type: 'object', properties, required }]. *)
Definition object_schema (properties : list (string * jval)) (required : list string) : jval :=
  JObj [("type", JStr "object"); ("properties", JObj properties);
        ("required", JArr (map JStr required))].

Section Registry.

Variable upstream : list request -> request -> outcome.

(** [new Date().toISOString()] at the time of the call. *)
Variable now : string.

(** [JSON.stringify(result, null, 2)]. *)
Variable stringify : jval -> string.

Definition getLoginTool : MCPTool :=
  mkTool "eos_login"
    "Authenticate user with EOS API using username and password"
    (object_schema
       [("username", string_property "User email or username");
        ("password", string_property "User password")]
       ["username"; "password"])
    (fun args =>
       try_catch
         (result <- login upstream args ;;
          d <- lift (get_prop result "data") ;;
          d' <- lift (get_prop result "data") ;;
          ret (JObj [("success", JBool true);
                     ("message", JStr "Login successful");
                     ("data", JObj [("user", opt_chain d "user");
                                    ("token", if truthy (opt_chain d' "token")
                                              then JStr "***" else JUndefined)])]))
         (fun error => ret (failure "Login failed" error))).

Definition getCurrentUserTool : MCPTool :=
  mkTool "eos_get_current_user"
    "Get current authenticated user profile"
    (object_schema [] [])
    (fun _ =>
       try_catch
         (user <- getCurrentUser upstream ;;
          ret (JObj [("success", JBool true);
                     ("message", JStr "User profile retrieved successfully");
                     ("data", user)]))
         (fun error => ret (failure "Failed to get user profile" error))).

Definition getUsersTool : MCPTool :=
  mkTool "eos_get_users"
    "Get all users (admin only)"
    (object_schema [] [])
    (fun _ =>
       try_catch
         (users <- getUsers upstream ;;
          len <- lift (get_prop users "length") ;;
          count <- lift (to_string len) ;;
          ret (JObj [("success", JBool true);
                     ("message", JStr ("Retrieved " ++ count ++ " users"));
                     ("data", users)]))
         (fun error => ret (failure "Failed to get users" error))).

Definition getInviteUserTool : MCPTool :=
  mkTool "eos_invite_user"
    "Invite a new user to the system"
    (object_schema
       [("email", string_property "Email address of the user to invite");
        ("role", enum_property "Role to assign to the user" ["admin"; "manager"; "user"]);
        ("firstName", string_property "First name of the user");
        ("lastName", string_property "Last name of the user")]
       ["email"; "role"])
    (fun args =>
       try_catch
         (result <- inviteUser upstream args ;;
          ret (JObj [("success", JBool true);
                     ("message", JStr "User invited successfully");
                     ("data", result)]))
         (fun error => ret (failure "Failed to invite user" error))).

Definition getUpdateUserStatusTool : MCPTool :=
  mkTool "eos_update_user_status"
    "Update user status (active/inactive)"
    (object_schema
       [("userId", string_property "ID of the user to update");
        ("status", enum_property "New status for the user" ["active"; "inactive"])]
       ["userId"; "status"])
    (fun args =>
       try_catch
         (userId <- lift (get_prop args "userId") ;;
          status <- lift (get_prop args "status") ;;
          result <- updateUserStatus upstream userId status ;;
          shown <- lift (get_prop args "status") ;;
          text <- lift (to_string shown) ;;
          ret (JObj [("success", JBool true);
                     ("message", JStr ("User status updated to " ++ text));
                     ("data", result)]))
         (fun error => ret (failure "Failed to update user status" error))).

Definition getDeleteUserTool : MCPTool :=
  mkTool "eos_delete_user"
    "Delete a user from the system"
    (object_schema
       [("userId", string_property "ID of the user to delete")]
       ["userId"])
    (fun args =>
       try_catch
         (userId <- lift (get_prop args "userId") ;;
          result <- deleteUser upstream userId ;;
          ret (JObj [("success", JBool true);
                     ("message", JStr "User deleted successfully");
                     ("data", result)]))
         (fun error => ret (failure "Failed to delete user" error))).

Definition getHealthCheckTool : MCPTool :=
  mkTool "eos_health_check"
    "Check EOS API connectivity and health"
    (object_schema [] [])
    (fun _ =>
       try_catch
         (isHealthy <- healthCheck upstream ;;
          ret (JObj [("success", JBool true);
                     ("message", JStr (if isHealthy : bool then "EOS API is healthy"
                                       else "EOS API is not responding"));
                     ("data", JObj [("status", JStr (if isHealthy then "healthy" else "unhealthy"));
                                    ("timestamp", JStr now)])]))
         (fun error => ret (failure "Health check failed" error))).

Definition getTools : list MCPTool :=
  [getLoginTool; getCurrentUserTool; getUsersTool; getInviteUserTool;
   getUpdateUserStatusTool; getDeleteUserTool; getHealthCheckTool].

(** The [CallToolRequestSchema] handler of [src/mcp/server.ts]. *)
Definition callTool (name' : string) (args : jval) : M jval :=
  match find (fun t => (name t =? name')%string) getTools with
  | None => throw (MCPError ("Tool '" ++ name' ++ "' not found") "TOOL_NOT_FOUND" JUndefined)
  | Some tool =>
      try_catch
        (result <- handler tool args ;;
         ret (JObj [("content",
                     JArr [JObj [("type", JStr "text");
                                 ("text", JStr (stringify result))]])]))
        (fun error =>
           throw (MCPError
                    (js_to_string (js_or (exn_message error) (JStr "Tool execution failed")))
                    "TOOL_EXECUTION_ERROR"
                    (JObj [("tool", JStr name'); ("error", exn_message error)])))
  end.

(** One entry of the tool listing: [{ name, description, inputSchema }]. *)
Definition listed (tool : MCPTool) : jval :=
  JObj [("name", JStr (name tool));
        ("description", JStr (description tool));
        ("inputSchema", inputSchema tool)].

(** The [ListToolsRequestSchema] handler of [src/mcp/server.ts]. *)
Definition listTools : jval :=
  JObj [("tools", JArr (map listed getTools))].

End Registry.

(* ================================================================== *)
(** ** [RestApiServer] routes ([src/rest/server.ts]) *)
(* ================================================================== *)

(** What a route sends: [res.status(s).json(b)]; [res.json(b)] alone
    sends status 200. *)
Record reply : Type := mkReply {
  res_status : jval;
  res_body : jval
}.

Definition res_json (b : jval) : reply := mkReply (JNum 200) b.

(** [const { k } = v]. *)
Definition destructure (v : jval) (k : string) (source : string) : jval + exn :=
  match v with
  | JUndefined =>
      inr (TypeError ("Cannot destructure property '" ++ k ++ "' of '" ++ source
                      ++ "' as it is undefined."))
  | JNull =>
      inr (TypeError ("Cannot destructure property '" ++ k ++ "' of '" ++ source
                      ++ "' as it is null."))
  | _ => get_prop v k
  end.

(** [['active', 'inactive'].includes(v)]. *)
Definition is_status (v : jval) : bool :=
  match v with
  | JStr s => (s =? "active")%string || (s =? "inactive")%string
  | _ => false
  end.

Section Rest.

Variable upstream : list request -> request -> outcome.
Variable now : string.

(** The [catch] block shared by the six routes that call the Adapter. *)
Definition res_failure (fallback : string) (error : exn) : reply :=
  mkReply (js_or (exn_statusCode error) (JNum 500)) (failure fallback error).

(** [GET /health]. *)
Definition get_health : M reply :=
  try_catch
    (isHealthy <- healthCheck upstream ;;
     ret (res_json (JObj [("status", JStr "ok");
                          ("timestamp", JStr now);
                          ("eosApi", JStr (if isHealthy : bool then "connected"
                                           else "disconnected"))])))
    (fun error =>
       ret (mkReply (JNum 500)
                    (JObj [("status", JStr "error");
                           ("message", JStr "Health check failed");
                           ("error", exn_message error)]))).

(** [POST /auth/login]. *)
Definition post_auth_login (body : jval) : M reply :=
  try_catch
    (let credentials := body in
     username <- lift (get_prop credentials "username") ;;
     missing <- (if js_not username then ret true
                 else password <- lift (get_prop credentials "password") ;;
                      ret (js_not password)) ;;
     if missing : bool
     then ret (mkReply (JNum 400)
                       (JObj [("success", JBool false);
                              ("message", JStr "Username and password are required")]))
     else result <- login upstream credentials ;;
          ret (res_json result))
    (fun error => ret (res_failure "Login failed" error)).

(** [GET /users/current]. *)
Definition get_users_current : M reply :=
  try_catch
    (user <- getCurrentUser upstream ;;
     ret (res_json (JObj [("success", JBool true); ("data", user)])))
    (fun error => ret (res_failure "Failed to get current user" error)).

(** [GET /users]. *)
Definition get_users : M reply :=
  try_catch
    (users <- getUsers upstream ;;
     ret (res_json (JObj [("success", JBool true); ("data", users)])))
    (fun error => ret (res_failure "Failed to get users" error)).

(** [POST /users/invite]. *)
Definition post_users_invite (body : jval) : M reply :=
  try_catch
    (let inviteData := body in
     email <- lift (get_prop inviteData "email") ;;
     missing <- (if js_not email then ret true
                 else role <- lift (get_prop inviteData "role") ;;
                      ret (js_not role)) ;;
     if missing : bool
     then ret (mkReply (JNum 400)
                       (JObj [("success", JBool false);
                              ("message", JStr "Email and role are required")]))
     else result <- inviteUser upstream inviteData ;;
          ret (res_json result))
    (fun error => ret (res_failure "Failed to invite user" error)).

(** [PATCH /users/:userId/status]. *)
Definition patch_users_status (userId : string) (body : jval) : M reply :=
  try_catch
    (status <- lift (destructure body "status" "req.body") ;;
     if js_not status || negb (is_status status)
     then ret (mkReply (JNum 400)
                       (JObj [("success", JBool false);
                              ("message", JStr "Valid status (active/inactive) is required")]))
     else result <- updateUserStatus upstream (JStr userId) status ;;
          ret (res_json result))
    (fun error => ret (res_failure "Failed to update user status" error)).

(** [DELETE /users/:userId]. *)
Definition delete_users (userId : string) : M reply :=
  try_catch
    (result <- deleteUser upstream (JStr userId) ;;
     ret (res_json result))
    (fun error => ret (res_failure "Failed to delete user" error)).

End Rest.

(* ================================================================== *)
(** ** Vocabulary of the statements *)
(* ================================================================== *)

(** A transport-level failure of the upstream call: no response
    (connection error, timeout) or a response outside 2xx. *)
Definition transport_failure (o : outcome) : bool :=
  match o with
  | Responded st _ => negb (validateStatus st)
  | NoResponse _ => true
  end.

(** The upstream HTTP status when a response is available, else the
    sentinel 0. *)
Definition upstream_status (o : outcome) : Z :=
  match o with
  | Responded st _ => st
  | NoResponse _ => 0
  end.

(** What the response interceptor makes the message of its error from:
    [error.response.data?.message || 'API request failed'] when a response
    arrived, [error.message || 'Network error'] otherwise. *)
Definition failure_message (o : outcome) : jval :=
  match o with
  | Responded _ body => js_or (opt_chain body "message") (JStr "API request failed")
  | NoResponse message => js_or (JStr message) (JStr "Network error")
  end.

(** The body the error carries along: the response's, if there is one. *)
Definition failure_body (o : outcome) : jval :=
  match o with
  | Responded _ body => body
  | NoResponse _ => JUndefined
  end.

(** One call of a method of the Adapter that goes to the upstream, with
    the arguments as the method declares them: [userId: string]. *)
Inductive method_call : Type :=
| Login (credentials : jval)
| GetCurrentUser
| GetUsers
| InviteUser (inviteData : jval)
| UpdateUserStatus (userId : string) (status : jval)
| DeleteUser (userId : string)
| HealthCheck.

(** The request configuration the method hands to axios. *)
Definition config_of (c : method_call) : request :=
  match c with
  | Login credentials => mkRequest POST "/user/login" credentials None
  | GetCurrentUser => mkRequest GET "/user/profile" JUndefined None
  | GetUsers => mkRequest GET "/users" JUndefined None
  | InviteUser inviteData => mkRequest POST "/users/invite" inviteData None
  | UpdateUserStatus userId status =>
      mkRequest PATCH ("/users/" ++ userId ++ "/status")
                (JObj [("status", status)]) None
  | DeleteUser userId => mkRequest DELETE ("/users/" ++ userId) JUndefined None
  | HealthCheck => mkRequest GET "/health" JUndefined None
  end.

(** The message of the error a method raises in its own [catch] block. *)
Definition own_message (c : method_call) : string :=
  match c with
  | Login _ => "Login failed"
  | GetCurrentUser => "Failed to get user profile"
  | GetUsers => "Failed to get users"
  | InviteUser _ => "Failed to invite user"
  | UpdateUserStatus _ _ => "Failed to update user status"
  | DeleteUser _ => "Failed to delete user"
  | HealthCheck => ""
  end.

(** The token a login stores: the value of
    [response.data.success && response.data.data?.token] when it is
    truthy and the response is 2xx. *)
Definition stored_by_login (o : outcome) : option jval :=
  match o with
  | Responded st body =>
      if validateStatus st
         && truthy (opt_chain body "success")
         && truthy (opt_chain (opt_chain body "data") "token")
      then Some (opt_chain (opt_chain body "data") "token")
      else None
  | NoResponse _ => None
  end.

(** The Adapter call a tool's handler makes for given arguments, when its
    own reads of the arguments do not throw first; the user id is named
    by the text that goes into the URL, and there is no call to speak of
    when the user id has no text. *)
Definition adapter_call (tool : string) (args : jval) : option method_call :=
  if (tool =? "eos_login")%string then Some (Login args)
  else if (tool =? "eos_get_current_user")%string then Some GetCurrentUser
  else if (tool =? "eos_get_users")%string then Some GetUsers
  else if (tool =? "eos_invite_user")%string then Some (InviteUser args)
  else if (tool =? "eos_update_user_status")%string then
    if nullish args then None
    else match to_string (opt_chain args "userId") with
         | inl userId => Some (UpdateUserStatus userId (opt_chain args "status"))
         | inr _ => None
         end
  else if (tool =? "eos_delete_user")%string then
    if nullish args then None
    else match to_string (opt_chain args "userId") with
         | inl userId => Some (DeleteUser userId)
         | inr _ => None
         end
  else if (tool =? "eos_health_check")%string then Some HealthCheck
  else None.



(** [needle] occurs in [hay]. *)
Definition occurs (needle hay : string) : bool :=
  match String.index 0 needle hay with
  | Some _ => true
  | None => false
  end.

(** [needle] occurs in a member name of [v] or in the text of one of its
    leaves ([undefined] has no text: [JSON.stringify] drops it). *)
Fixpoint mentions (needle : string) (v : jval) : bool :=
  match v with
  | JUndefined => false
  | JNull => occurs needle "null"
  | JBool b => occurs needle (if b then "true" else "false")
  | JNum n => occurs needle (string_of_Z n)
  | JStr s => occurs needle s
  | JArr items => existsb (mentions needle) items
  | JObj members =>
      existsb (fun member : string * jval =>
                 let (k, x) := member in occurs needle k || mentions needle x)
              members
  end.

(** The envelope the [eos_login] handler builds around a user record when
    the response carries a token. *)
Definition login_envelope (user : jval) : jval :=
  JObj [("success", JBool true);
        ("message", JStr "Login successful");
        ("data", JObj [("user", user); ("token", JStr "***")])].

Section Calls.

Variable upstream : list request -> request -> outcome.

(** Running one Adapter call ([healthCheck]'s boolean as a JSON value). *)
Definition invoke (c : method_call) : M jval :=
  match c with
  | Login credentials => login upstream credentials
  | GetCurrentUser => getCurrentUser upstream
  | GetUsers => getUsers upstream
  | InviteUser inviteData => inviteUser upstream inviteData
  | UpdateUserStatus userId status => updateUserStatus upstream (JStr userId) status
  | DeleteUser userId => deleteUser upstream (JStr userId)
  | HealthCheck => b <- healthCheck upstream ;; ret (JBool b)
  end.

(** What a call on the axios instance adds to the log: the request as it
    goes out, or as it was handed in when the request interceptor
    throws. *)
Definition logged (svc : EOSApiService) (config : request) : request :=
  match request_interceptor svc config with
  | inl config' => config'
  | inr _ => config
  end.

(** What comes back for it: the upstream's answer to the request sent;
    when the request interceptor throws, nothing is sent and what comes
    back is a failure without response, carrying the thrown message. *)
Definition came_back (svc : EOSApiService) (history : list request) (config : request)
  : outcome :=
  match request_interceptor svc config with
  | inl config' => upstream history config'
  | inr thrown => NoResponse (thrown_text thrown)
  end.

(** The same for one call of a method. *)
Definition sent (c : method_call) (w : world) : request :=
  logged (service w) (config_of c).

Definition answer (c : method_call) (w : world) : outcome :=
  came_back (service w) (calls w) (config_of c).

End Calls.

(** One request to the REST server, by the route that matches it; the
    body is [req.body], the user id is [req.params.userId]. *)
Inductive rest_request : Type :=
| GetHealth
| PostAuthLogin (body : jval)
| GetUsersCurrent
| GetUsersAll
| PostUsersInvite (body : jval)
| PatchUsersStatus (userId : string) (body : jval)
| DeleteUsers (userId : string)
| Unmatched.

(** The 404 handler: [res.status(404).json({ success: false, message:
    'Route not found' })]. *)
Definition route_not_found : reply :=
  mkReply (JNum 404)
          (JObj [("success", JBool false); ("message", JStr "Route not found")]).

(** The Adapter call a route makes, when its own checks of the request
    let it through. *)
Definition route_call (r : rest_request) : option method_call :=
  match r with
  | GetHealth => Some HealthCheck
  | PostAuthLogin body =>
      if truthy (opt_chain body "username") && truthy (opt_chain body "password")
      then Some (Login body) else None
  | GetUsersCurrent => Some GetCurrentUser
  | GetUsersAll => Some GetUsers
  | PostUsersInvite body =>
      if truthy (opt_chain body "email") && truthy (opt_chain body "role")
      then Some (InviteUser body) else None
  | PatchUsersStatus userId body =>
      if is_status (opt_chain body "status")
      then Some (UpdateUserStatus userId (opt_chain body "status")) else None
  | DeleteUsers userId => Some (DeleteUser userId)
  | Unmatched => None
  end.

Section Routes.

Variable upstream : list request -> request -> outcome.
Variable now : string.

(** The routes in the order [setupRoutes] registers them, the 404
    handler last. *)
Definition serve (r : rest_request) : M reply :=
  match r with
  | GetHealth => get_health upstream now
  | PostAuthLogin body => post_auth_login upstream body
  | GetUsersCurrent => get_users_current upstream
  | GetUsersAll => get_users upstream
  | PostUsersInvite body => post_users_invite upstream body
  | PatchUsersStatus userId body => patch_users_status upstream userId body
  | DeleteUsers userId => delete_users upstream userId
  | Unmatched => ret route_not_found
  end.

End Routes.

(* ================================================================== *)
(** ** Concrete upstreams and inputs *)
(* ================================================================== *)

(** A fresh Adapter that has issued no request. *)
Definition w0 : world := mkWorld new_EOSApiService [].

(** An Adapter holding the token [abc]. *)
Definition w_abc : world := mkWorld (mkService (JStr "abc")) [].

Definition credentials0 : jval :=
  JObj [("username", JStr "mp5@eigital.com"); ("password", JStr "Test@055")].

Definition user0 : jval :=
  JObj [("id", JStr "1"); ("username", JStr "mp5@eigital.com")].

(** The login response of the spec's example. *)
Definition login_body : jval :=
  JObj [("success", JBool true);
        ("data", JObj [("token", JStr "abc"); ("user", user0)])].

(** A login response whose user record repeats the token. *)
Definition login_body_echo : jval :=
  JObj [("success", JBool true);
        ("data", JObj [("token", JStr "abc");
                       ("user", JObj [("id", JStr "1");
                                      ("username", JStr "mp5@eigital.com");
                                      ("token", JStr "abc")])])].

Definition always (o : outcome) : list request -> request -> outcome := fun _ _ => o.

Definition up_login : list request -> request -> outcome := always (Responded 200 login_body).

Definition up_login_echo : list request -> request -> outcome :=
  always (Responded 200 login_body_echo).

Definition up_ok : list request -> request -> outcome :=
  always (Responded 200 (JObj [("success", JBool true)])).

Definition up_401 : list request -> request -> outcome :=
  always (Responded 401 (JObj [("success", JBool false);
                               ("message", JStr "Invalid credentials")])).

Definition up_down : list request -> request -> outcome := always (NoResponse "Network Error").

(** An upstream that rejects with a message that has no text, and one
    that answers 200 with the body [null]. *)
Definition up_unprintable : list request -> request -> outcome :=
  always (Responded 401 (JObj [("message", JObj [("toString", JNum 1)])])).

Definition up_null : list request -> request -> outcome := always (Responded 200 JNull).

(** An invitation whose role is outside [{admin, manager, user}]. *)
Definition invite_superuser : jval :=
  JObj [("email", JStr "new@eigital.com"); ("role", JStr "superuser")].

(** The clock reading used in the examples. *)
Definition now0 : string := "2026-01-01T00:00:00.000Z".

(* ================================================================== *)
(** ** Facts about the operators and the transport *)
(* ================================================================== *)

Ltac unfold_monad :=
  unfold rethrow, setAuthToken, clearAuthToken in *;
  unfold try_catch, bind, ret, throw, lift in *.

(** Case analysis on whatever the goal still branches on. *)
Ltac break_match :=
  match goal with
  | |- context [match ?x with _ => _ end] =>
      lazymatch x with
      | context [match _ with _ => _ end] => fail
      | _ => destruct x eqn:?
      end
  end.

Lemma get_prop_defined (v : jval) (k : string) :
  nullish v = false -> get_prop v k = inl (opt_chain v k).
Proof.
  unfold opt_chain. destruct v; simpl; intros H; try discriminate; reflexivity.
Qed.

Lemma opt_chain_nullish (v : jval) (k : string) :
  nullish v = true -> opt_chain v k = JUndefined.
Proof.
  destruct v; simpl; intros H; try discriminate; reflexivity.
Qed.

Lemma opt_chain_truthy_defined (v : jval) (k : string) :
  truthy (opt_chain v k) = true -> nullish v = false.
Proof.
  destruct (nullish v) eqn:E; [|reflexivity].
  rewrite (opt_chain_nullish v k E). discriminate.
Qed.

Lemma absent_field (v : jval) (k : string) :
  has_field v k = false -> k <> "length" -> opt_chain v k = JUndefined.
Proof.
  intros H Hk. apply String.eqb_neq in Hk.
  destruct v; unfold opt_chain; simpl in *; try rewrite Hk; try reflexivity.
  destruct (assoc k members); [discriminate | reflexivity].
Qed.

Lemma dispatch_2xx (st : Z) (body : jval) :
  validateStatus st = true ->
  dispatch (Responded st body) = inl (mkAxiosResponse st body).
Proof.
  intros H. simpl. rewrite H. reflexivity.
Qed.

Lemma to_string_text (v : jval) :
  to_string_throws v = false -> to_string v = inl (js_to_string v).
Proof.
  intros H. unfold to_string. rewrite H. reflexivity.
Qed.

Lemma to_string_thrown (v : jval) (thrown : exn) :
  to_string v = inr thrown -> to_string_throws v = true.
Proof.
  unfold to_string. destruct (to_string_throws v); [reflexivity | discriminate].
Qed.

Lemma to_string_string (text : string) : to_string (JStr text) = inl text.
Proof. reflexivity. Qed.

Lemma new_EOSApiError_text (message : jval) (code : Z) (response : jval) :
  to_string_throws message = false ->
  new_EOSApiError message code response = EOSApiError (js_to_string message) code response.
Proof.
  intros H. unfold new_EOSApiError. rewrite (to_string_text _ H). reflexivity.
Qed.

Lemma new_EOSApiError_thrown (message : jval) (code : Z) (response : jval) :
  to_string_throws message = true ->
  new_EOSApiError message code response
  = TypeError "Cannot convert object to primitive value".
Proof.
  intros H. unfold new_EOSApiError, to_string. rewrite H. reflexivity.
Qed.

(** On every transport-level failure the response interceptor builds its
    error from the failure's message, status and body. *)
Lemma dispatch_failure (o : outcome) :
  transport_failure o = true ->
  exists error,
    dispatch o = inr error /\
    response_rejected error
    = new_EOSApiError (failure_message o) (upstream_status o) (failure_body o).
Proof.
  destruct o as [st body | msg]; simpl; intros H.
  - apply negb_true_iff in H. rewrite H. eexists. split; reflexivity.
  - eexists. split; reflexivity.
Qed.

Section Facts.

Variable upstream : list request -> request -> outcome.

Lemma api_request_run (m : http_method) (url : string) (body : jval) (w : world) :
  api_request upstream m url body w =
  (match dispatch (came_back upstream (service w) (calls w) (mkRequest m url body None)) with
   | inl response => inl response
   | inr error => inr (response_rejected error)
   end,
   mkWorld (service w) (calls w ++ [logged (service w) (mkRequest m url body None)])).
Proof.
  unfold api_request, came_back, logged.
  destruct (request_interceptor _ _) as [config' | thrown]; [|reflexivity].
  destruct (dispatch _); reflexivity.
Qed.

(** Every call of a method makes exactly one call on the axios instance,
    the one [sent] names, and nothing else is written to the log. *)
Lemma invoke_calls (c : method_call) (w : world) :
  calls (snd (invoke upstream c w)) = (calls w ++ [sent c w])%list.
Proof.
  unfold sent.
  destruct c; cbn [invoke]; unfold login, getCurrentUser, getUsers, inviteUser,
    updateUserStatus, deleteUser, healthCheck; unfold_monad;
    rewrite ?to_string_string; cbv beta iota;
    rewrite api_request_run; cbn [config_of];
    repeat (break_match; cbn [snd calls]); reflexivity.
Qed.

(** A user id reaches the URL as its text. *)
Lemma updateUserStatus_text (userId : jval) (id : string) (status : jval) :
  to_string userId = inl id ->
  updateUserStatus upstream userId status = updateUserStatus upstream (JStr id) status.
Proof.
  intros H. unfold updateUserStatus. rewrite H, to_string_string. reflexivity.
Qed.

Lemma deleteUser_text (userId : jval) (id : string) :
  to_string userId = inl id ->
  deleteUser upstream userId = deleteUser upstream (JStr id).
Proof.
  intros H. unfold deleteUser. rewrite H, to_string_string. reflexivity.
Qed.

(** A user id without text stops the method before any request: the
    template literal throws and the [catch] block raises the method's own
    error. *)
Lemma updateUserStatus_no_text (userId status : jval) (w : world) :
  to_string_throws userId = true ->
  updateUserStatus upstream userId status w
  = (inr (EOSApiError "Failed to update user status" 500 JUndefined), w).
Proof.
  intros H. unfold updateUserStatus, to_string. rewrite H. reflexivity.
Qed.

Lemma deleteUser_no_text (userId : jval) (w : world) :
  to_string_throws userId = true ->
  deleteUser upstream userId w = (inr (EOSApiError "Failed to delete user" 500 JUndefined), w).
Proof.
  intros H. unfold deleteUser, to_string. rewrite H. reflexivity.
Qed.

Lemma healthCheck_run (w : world) :
  healthCheck upstream w
  = (inl (negb (transport_failure (answer upstream HealthCheck w))),
     mkWorld (service w) (calls w ++ [sent HealthCheck w])).
Proof.
  unfold healthCheck, answer, sent. unfold_monad.
  rewrite api_request_run. simpl config_of.
  destruct (came_back _ _ _ _) as [st body | msg]; simpl.
  - destruct (validateStatus st); reflexivity.
  - reflexivity.
Qed.

(** The three methods that hand the body on do so for every 2xx
    response. *)
Lemma write_call_2xx (c : method_call) (w : world) (st : Z) (body : jval) :
  match c with InviteUser _ | UpdateUserStatus _ _ | DeleteUser _ => True | _ => False end ->
  answer upstream c w = Responded st body ->
  validateStatus st = true ->
  invoke upstream c w = (inl body, mkWorld (service w) (calls w ++ [sent c w])).
Proof.
  unfold answer, sent. intros Hc Hup H2xx.
  destruct c; try contradiction; cbn [invoke config_of] in *;
    unfold inviteUser, updateUserStatus, deleteUser; unfold_monad;
    rewrite ?to_string_string; cbv beta iota; rewrite api_request_run, Hup, (dispatch_2xx _ _ H2xx); reflexivity.
Qed.

End Facts.

(* ================================================================== *)
(** ** The model at work *)
(* ================================================================== *)

(** A login with valid credentials stores the token and sends no bearer
    header yet; the next call carries the header. *)
Example login_then_profile :
  calls (snd (getCurrentUser up_login (snd (login up_login credentials0 w0))))
  = [mkRequest POST "/user/login" credentials0 None;
     mkRequest GET "/user/profile" JUndefined (Some "Bearer abc")].
Proof. reflexivity. Qed.

(** A login with invalid credentials raises the upstream's message and
    status, and the tool's handler turns them into an envelope. *)
Example login_rejected :
  fst (login up_401 credentials0 w0)
  = inr (EOSApiError "Invalid credentials" 401
           (JObj [("success", JBool false); ("message", JStr "Invalid credentials")])).
Proof. reflexivity. Qed.

Example eos_login_rejected :
  fst (handler (getLoginTool up_401) credentials0 w0)
  = inl (JObj [("success", JBool false);
               ("message", JStr "Invalid credentials");
               ("error", JNum 401)]).
Proof. reflexivity. Qed.

(** [PATCH /users/7/status] with the status [deleted] is answered with
    400 and reaches no upstream. *)
Example patch_status_deleted :
  patch_users_status up_ok "7" (JObj [("status", JStr "deleted")]) w0
  = (inl (mkReply (JNum 400)
                  (JObj [("success", JBool false);
                         ("message", JStr "Valid status (active/inactive) is required")])),
     w0).
Proof. reflexivity. Qed.

(** Deleting the same user twice gives the same envelope twice. *)
Example delete_twice :
  let first := handler (getDeleteUserTool up_ok) (JObj [("userId", JStr "7")]) w0 in
  let second := handler (getDeleteUserTool up_ok) (JObj [("userId", JStr "7")]) (snd first) in
  fst first = fst second /\
  calls (snd second)
  = [mkRequest DELETE "/users/7" JUndefined None; mkRequest DELETE "/users/7" JUndefined None].
Proof. split; reflexivity. Qed.

(** An unknown tool name is a dispatch error; a status update without
    arguments fails inside the handler, before any Adapter call. *)
Example unknown_tool :
  fst (callTool up_ok now0 js_to_string "unknown" (JObj []) w0)
  = inr (MCPError "Tool 'unknown' not found" "TOOL_NOT_FOUND" JUndefined).
Proof. reflexivity. Qed.

Example update_status_without_arguments :
  handler (getUpdateUserStatusTool up_ok) JUndefined w0
  = (inl (JObj [("success", JBool false);
                ("message", JStr "Cannot read properties of undefined (reading 'userId')");
                ("error", JNum 500)]),
     w0).
Proof. reflexivity. Qed.

(** Numbers print as Number::toString prints them. *)
Example number_texts :
  map js_to_string [JNum 401; JNum (-12); JNum (2 ^ 53 + 1); JNum (2 ^ 60);
                    JNum (10 ^ 20); JNum (10 ^ 21); JNum (15 * 10 ^ 20); JNum (2 ^ 70)]
  = ["401"; "-12"; "9007199254740992"; "1152921504606847000";
     "100000000000000000000"; "1e+21"; "1.5e+21"; "1.1805916207174113e+21"].
Proof. vm_compute. reflexivity. Qed.

(** A user id of 10^21 is requested as [/users/1e+21]. *)
Example delete_user_1e21 :
  calls (snd (handler (getDeleteUserTool up_ok) (JObj [("userId", JNum (10 ^ 21))]) w0))
  = [mkRequest DELETE "/users/1e+21" JUndefined None].
Proof. vm_compute. reflexivity. Qed.

(** A user id that is an object with a [toString] member of its own has
    no text: the URL cannot be built, nothing is sent and the handler
    reports the Adapter's own error. *)
Example delete_user_without_text :
  handler (getDeleteUserTool up_ok) (JObj [("userId", JObj [("toString", JNum 1)])]) w0
  = (inl (JObj [("success", JBool false);
                ("message", JStr "Failed to delete user");
                ("error", JNum 500)]),
     w0).
Proof. reflexivity. Qed.

(** A status without text: the update is sent and accepted, and then the
    handler fails on its own message. *)
Example update_status_without_text :
  handler (getUpdateUserStatusTool up_ok)
          (JObj [("userId", JStr "7"); ("status", JObj [("toString", JNum 1)])]) w0
  = (inl (JObj [("success", JBool false);
                ("message", JStr "Cannot convert object to primitive value");
                ("error", JNum 500)]),
     mkWorld new_EOSApiService
             [mkRequest PATCH "/users/7/status"
                        (JObj [("status", JObj [("toString", JNum 1)])]) None]).
Proof. reflexivity. Qed.

(** An Adapter holding a token without text cannot build the bearer
    header: the call is made on the axios instance, nothing is sent, and
    the method raises with status code 0. *)
Example token_without_text :
  getUsers up_ok (mkWorld (mkService (JObj [("toString", JNum 1)])) [])
  = (inr (EOSApiError "Cannot convert object to primitive value" 0 JUndefined),
     mkWorld (mkService (JObj [("toString", JNum 1)]))
             [mkRequest GET "/users" JUndefined None]).
Proof. reflexivity. Qed.

(* ================================================================== *)
(** ** The Adapter: failures, health check, absent data *)
(* ================================================================== *)

Section AdapterClaims.

Variable upstream : list request -> request -> outcome.

(** C5, as the code has it.  Every method of the Adapter other than
    [healthCheck], on every transport-level failure of its upstream call
    (no response at all, or a response outside 2xx), raises an
    [EOSApiError].  When no response arrived its status code is 0.  When
    one arrived and the message of its body has a text (every string, and
    every body without a message), the error carries that text, the
    upstream HTTP status and the body.  When the message has no text,
    building the error throws inside the response interceptor and the
    method raises its own error with status code 500.  Whatever a method
    raises, on any outcome, is an [EOSApiError]: neither the transport's
    [AxiosError] nor any other thrown value leaves the Adapter. *)
Theorem upstream_failure_is_uniform (c : method_call) (w : world) :
  (c <> HealthCheck ->
   transport_failure (answer upstream c w) = true ->
   to_string_throws (failure_message (answer upstream c w)) = false ->
   fst (invoke upstream c w)
   = inr (EOSApiError (js_to_string (failure_message (answer upstream c w)))
                      (upstream_status (answer upstream c w))
                      (failure_body (answer upstream c w))))
  /\ (c <> HealthCheck ->
      forall message,
        answer upstream c w = NoResponse message ->
        fst (invoke upstream c w)
        = inr (EOSApiError (if (message =? "")%string then "Network error" else message)
                           0 JUndefined))
  /\ (c <> HealthCheck ->
      transport_failure (answer upstream c w) = true ->
      to_string_throws (failure_message (answer upstream c w)) = true ->
      fst (invoke upstream c w) = inr (EOSApiError (own_message c) 500 JUndefined))
  /\ (forall e, fst (invoke upstream c w) = inr e -> instanceof_EOSApiError e = true).
Proof.
  assert (Hraise : c <> HealthCheck ->
                   transport_failure (answer upstream c w) = true ->
                   fst (invoke upstream c w)
                   = match new_EOSApiError (failure_message (answer upstream c w))
                             (upstream_status (answer upstream c w))
                             (failure_body (answer upstream c w)) with
                     | EOSApiError m code r => inr (EOSApiError m code r)
                     | _ => inr (EOSApiError (own_message c) 500 JUndefined)
                     end).
  { intros Hc Hfail.
    destruct (dispatch_failure _ Hfail) as (error & Hd & Hr).
    unfold answer, sent in *.
    destruct c; try contradiction; cbn [invoke config_of own_message] in *;
      unfold login, getCurrentUser, getUsers, inviteUser, updateUserStatus, deleteUser;
      unfold_monad; rewrite ?to_string_string; cbv beta iota;
      rewrite api_request_run, Hd; cbv beta iota; rewrite Hr;
      destruct (new_EOSApiError _ _ _); reflexivity. }
  repeat apply conj.
  - intros Hc Hfail Htext. rewrite (Hraise Hc Hfail), (new_EOSApiError_text _ _ _ Htext).
    reflexivity.
  - intros Hc message Hup.
    assert (Hfail : transport_failure (answer upstream c w) = true)
      by (rewrite Hup; reflexivity).
    rewrite (Hraise Hc Hfail), Hup. cbn [failure_message upstream_status failure_body].
    unfold js_or. cbn [truthy]. destruct (message =? "")%string; reflexivity.
  - intros Hc Hfail Hnotext. rewrite (Hraise Hc Hfail), (new_EOSApiError_thrown _ _ _ Hnotext).
    reflexivity.
  - assert (Hrej : forall error,
               instanceof_EOSApiError (response_rejected error) = true
               \/ response_rejected error = TypeError "Cannot convert object to primitive value").
    { intros error. unfold response_rejected, new_EOSApiError, to_string.
      destruct (ax_response error); destruct (to_string_throws _); auto. }
    destruct c; cbn [invoke];
      unfold login, getCurrentUser, getUsers, inviteUser, updateUserStatus, deleteUser,
        healthCheck; unfold_monad; rewrite ?to_string_string; cbv beta iota;
      rewrite api_request_run;
      (destruct (dispatch _) as [response | error]; cbv beta iota;
       [| destruct (Hrej error) as [Hr | Hr];
          [destruct (response_rejected error); try discriminate Hr | try rewrite Hr]]);
      cbn [instanceof_EOSApiError];
      repeat (break_match; cbn [fst]);
      intros thrown Hthrown; try discriminate; injection Hthrown as <-;
      try reflexivity; assumption.
Qed.

(** C8.  [healthCheck] never raises: it returns [true] exactly when the
    upstream GET of [/health] is answered with a 2xx response, and [false]
    on every failure (no response, timeout, a response outside 2xx). *)
Theorem healthCheck_is_total (w : world) :
  fst (healthCheck upstream w)
  = inl (negb (transport_failure (answer upstream HealthCheck w))).
Proof.
  unfold healthCheck, answer, sent. unfold_monad.
  rewrite api_request_run. simpl config_of.
  destruct (came_back _ _ _ _) as [st body | msg]; simpl.
  - destruct (validateStatus st); reflexivity.
  - reflexivity.
Qed.

(** C9, as the code has it.  When the upstream answers [GET /users] with
    a 2xx response whose body is not [null] (an object, or any other
    value) and has no [data] member, [getUsers] returns the empty array
    and raises nothing. *)
Theorem getUsers_without_data (w : world) (st : Z) (body : jval) :
  answer upstream GetUsers w = Responded st body ->
  validateStatus st = true ->
  nullish body = false ->
  has_field body "data" = false ->
  fst (getUsers upstream w) = inl (JArr []).
Proof.
  unfold answer, sent. simpl config_of. intros Hup H2xx Hbody Hdata.
  unfold getUsers. unfold_monad.
  rewrite api_request_run, Hup, (dispatch_2xx _ _ H2xx). simpl.
  rewrite (get_prop_defined _ _ Hbody).
  rewrite (absent_field _ _ Hdata) by discriminate.
  reflexivity.
Qed.

(** C10, as the code has it.  When the upstream answers
    [GET /user/profile] with a 2xx response whose body is not [null] (an
    object, or any other value) and has no [data] member,
    [getCurrentUser] returns [undefined] and raises nothing. *)
Theorem getCurrentUser_without_data (w : world) (st : Z) (body : jval) :
  answer upstream GetCurrentUser w = Responded st body ->
  validateStatus st = true ->
  nullish body = false ->
  has_field body "data" = false ->
  fst (getCurrentUser upstream w) = inl JUndefined.
Proof.
  unfold answer, sent. simpl config_of. intros Hup H2xx Hbody Hdata.
  unfold getCurrentUser. unfold_monad.
  rewrite api_request_run, Hup, (dispatch_2xx _ _ H2xx). simpl.
  rewrite (get_prop_defined _ _ Hbody).
  rewrite (absent_field _ _ Hdata) by discriminate.
  reflexivity.
Qed.

(** A 2xx response whose body is [null] (or missing) is another matter:
    reading [data] off it throws, and the method raises its own error
    with status code 500. *)
Lemma getUsers_null_body (w : world) (st : Z) (body : jval) :
  answer upstream GetUsers w = Responded st body ->
  validateStatus st = true ->
  nullish body = true ->
  fst (getUsers upstream w) = inr (EOSApiError "Failed to get users" 500 JUndefined).
Proof.
  unfold answer, sent. simpl config_of. intros Hup H2xx Hbody.
  unfold getUsers. unfold_monad.
  rewrite api_request_run, Hup, (dispatch_2xx _ _ H2xx). cbn [data].
  destruct body; try discriminate; reflexivity.
Qed.

End AdapterClaims.

Lemma upstream_failure_is_uniform_witness :
  fst (invoke up_401 (Login credentials0) w0)
  = inr (EOSApiError "Invalid credentials" 401
           (JObj [("success", JBool false); ("message", JStr "Invalid credentials")])).
Proof.
  apply (proj1 (upstream_failure_is_uniform up_401 (Login credentials0) w0));
    [discriminate | reflexivity | reflexivity].
Defined.

(** C5, counterexample.  The upstream rejects a login with status 401 and
    a body whose message is an object with a [toString] member of its
    own.  The error [login] raises carries the status code 500, not the
    upstream's 401. *)
Lemma status_lost_when_message_has_no_text :
  answer up_unprintable (Login credentials0) w0
  = Responded 401 (JObj [("message", JObj [("toString", JNum 1)])]) /\
  transport_failure (answer up_unprintable (Login credentials0) w0) = true /\
  fst (login up_unprintable credentials0 w0) = inr (EOSApiError "Login failed" 500 JUndefined) /\
  500 <> upstream_status (answer up_unprintable (Login credentials0) w0).
Proof.
  repeat split. discriminate.
Qed.

(** C9, counterexample.  The upstream answers [GET /users] with status
    200 and the body [null], which has no [data] member; [getUsers]
    raises an error instead of returning the empty array. *)
Lemma getUsers_raises_on_null_body :
  answer up_null GetUsers w0 = Responded 200 JNull /\
  validateStatus 200 = true /\
  has_field JNull "data" = false /\
  fst (getUsers up_null w0) = inr (EOSApiError "Failed to get users" 500 JUndefined) /\
  fst (getUsers up_null w0) <> inl (JArr []).
Proof.
  repeat split. discriminate.
Qed.

(** C10, counterexample.  The upstream answers [GET /user/profile] with
    status 200 and the body [null], which has no [data] member;
    [getCurrentUser] raises an error instead of returning [undefined]. *)
Lemma getCurrentUser_raises_on_null_body :
  answer up_null GetCurrentUser w0 = Responded 200 JNull /\
  validateStatus 200 = true /\
  has_field JNull "data" = false /\
  fst (getCurrentUser up_null w0)
  = inr (EOSApiError "Failed to get user profile" 500 JUndefined) /\
  fst (getCurrentUser up_null w0) <> inl JUndefined.
Proof.
  repeat split. discriminate.
Qed.

Lemma getUsers_without_data_witness :
  fst (getUsers up_ok w0) = inl (JArr []).
Proof.
  apply (getUsers_without_data up_ok w0 200 (JObj [("success", JBool true)]));
    reflexivity.
Defined.

Lemma getCurrentUser_without_data_witness :
  fst (getCurrentUser up_ok w0) = inl JUndefined.
Proof.
  apply (getCurrentUser_without_data up_ok w0 200 (JObj [("success", JBool true)]));
    reflexivity.
Defined.

(* ================================================================== *)
(** ** The session token *)
(* ================================================================== *)

Section TokenClaims.

Variable upstream : list request -> request -> outcome.

(** A login whose 2xx response reports success and carries a token
    returns the response body and holds the token afterwards. *)
Lemma login_stores (credentials : jval) (w : world) (token : jval) :
  stored_by_login (answer upstream (Login credentials) w) = Some token ->
  exists st body,
    answer upstream (Login credentials) w = Responded st body /\
    login upstream credentials w
    = (inl body, mkWorld (mkService token) (calls w ++ [sent (Login credentials) w])).
Proof.
  unfold answer, sent. cbn [config_of].
  destruct (came_back _ _ _ _) as [st body | msg] eqn:Hup; [|discriminate].
  unfold stored_by_login.
  destruct (validateStatus st) eqn:H2xx; [|discriminate].
  destruct (truthy (opt_chain body "success")) eqn:Hs; [|discriminate].
  destruct (truthy (opt_chain (opt_chain body "data") "token")) eqn:Ht; [|discriminate].
  cbn [andb]. intros [= <-]. exists st, body. split; [reflexivity|].
  pose proof (opt_chain_truthy_defined _ _ Hs) as Hbody.
  pose proof (opt_chain_truthy_defined _ _ Ht) as Hdata.
  unfold login. unfold_monad.
  rewrite api_request_run, Hup, (dispatch_2xx _ _ H2xx). cbn [data].
  rewrite !(get_prop_defined _ _ Hbody), Hs, Ht, (get_prop_defined _ _ Hdata).
  reflexivity.
Qed.

(** Any other login leaves the token as it was. *)
Lemma login_keeps (credentials : jval) (w : world) :
  stored_by_login (answer upstream (Login credentials) w) = None ->
  service (snd (login upstream credentials w)) = service w.
Proof.
  unfold answer, sent. cbn [config_of]. unfold login. unfold_monad.
  rewrite api_request_run.
  destruct (came_back _ _ _ _) as [st body | msg] eqn:Hup;
    [| intros _; cbn [dispatch]; cbv beta iota;
       destruct (instanceof_EOSApiError _); reflexivity].
  unfold stored_by_login, dispatch.
  destruct (validateStatus st) eqn:H2xx;
    [| intros _; cbv beta iota; destruct (instanceof_EOSApiError _); reflexivity].
  cbn [andb data].
  destruct (nullish body) eqn:Hbody.
  - destruct body; try discriminate; reflexivity.
  - rewrite !(get_prop_defined _ _ Hbody).
    destruct (truthy (opt_chain body "success")) eqn:Hs.
    + cbn [andb].
      destruct (truthy (opt_chain (opt_chain body "data") "token")) eqn:Ht;
        [discriminate | reflexivity].
    + intros _. cbv beta iota. rewrite Hs. reflexivity.
Qed.

(** C6, as the code has it.  Among the calls that go to the upstream,
    only [login] can change the stored token, and it does so exactly when
    its 2xx response reports success and carries a token, to that token;
    [getCurrentUser], [getUsers], [inviteUser], [updateUserStatus],
    [deleteUser] and [healthCheck] never change it, and a call that
    raises, a failing login included, leaves it unchanged.  Besides
    [login], the Adapter's own [setAuthToken] and [clearAuthToken] set
    and clear the token. *)
Theorem token_changes_by_login_or_setters (c : method_call) (w : world) :
  service (snd (invoke upstream c w))
  = match c with
    | Login _ =>
        match stored_by_login (answer upstream c w) with
        | Some token => mkService token
        | None => service w
        end
    | _ => service w
    end
  /\ (forall e, fst (invoke upstream c w) = inr e ->
                service (snd (invoke upstream c w)) = service w)
  /\ (forall token, service (snd (setAuthToken token w)) = mkService token)
  /\ service (snd (clearAuthToken w)) = mkService JNull.
Proof.
  assert (Hother : forall c', (forall cr, c' <> Login cr) ->
                              service (snd (invoke upstream c' w)) = service w).
  { intros c' Hc'. destruct c'; try (exfalso; eapply Hc'; reflexivity);
      cbn [invoke]; unfold getCurrentUser, getUsers, inviteUser, updateUserStatus,
        deleteUser, healthCheck; unfold_monad; rewrite ?to_string_string; cbv beta iota; rewrite api_request_run;
      repeat (break_match; cbn [snd service]); reflexivity. }
  split; [|split; [|split]]; try reflexivity.
  - destruct c; try (apply Hother; discriminate).
    cbn [invoke].
    destruct (stored_by_login _) eqn:Hst.
    + destruct (login_stores _ _ _ Hst) as (st & body & _ & ->). reflexivity.
    + apply login_keeps, Hst.
  - intros e He.
    destruct c; try (apply Hother; discriminate).
    cbn [invoke] in *.
    destruct (stored_by_login (answer upstream (Login credentials) w)) eqn:Hst.
    + destruct (login_stores _ _ _ Hst) as (st & body & _ & Hrun).
      rewrite Hrun in He. discriminate.
    + apply login_keeps, Hst.
Qed.

End TokenClaims.

(** C6, counterexample.  [clearAuthToken] is a method of the Adapter
    other than [login], and it changes the stored token: an Adapter
    holding [abc] holds nothing afterwards. *)
Lemma clearAuthToken_changes_token :
  authToken (service w_abc) = JStr "abc" /\
  authToken (service (snd (clearAuthToken w_abc))) = JNull /\
  service (snd (clearAuthToken w_abc)) <> service w_abc.
Proof.
  repeat split; discriminate.
Qed.

Lemma token_changes_by_login_or_setters_witness :
  service (snd (invoke up_401 (Login credentials0) w_abc)) = service w_abc.
Proof.
  apply (proj1 (proj2 (token_changes_by_login_or_setters up_401 (Login credentials0) w_abc))
               (EOSApiError "Invalid credentials" 401
                  (JObj [("success", JBool false);
                         ("message", JStr "Invalid credentials")]))).
  reflexivity.
Defined.

(* ================================================================== *)
(** ** What a login hands back *)
(* ================================================================== *)

Section LoginClaims.

Variable upstream : list request -> request -> outcome.

(** On a 2xx response with a body, [login] returns the body as it
    arrived. *)
Lemma login_2xx (credentials : jval) (w : world) (st : Z) (body : jval) :
  answer upstream (Login credentials) w = Responded st body ->
  validateStatus st = true ->
  nullish body = false ->
  exists w', login upstream credentials w = (inl body, w').
Proof.
  unfold answer, sent. cbn [config_of]. intros Hup H2xx Hbody.
  unfold login. unfold_monad.
  rewrite api_request_run, Hup, (dispatch_2xx _ _ H2xx). cbn [data].
  rewrite !(get_prop_defined _ _ Hbody).
  destruct (truthy (opt_chain body "success")) eqn:Hs; cbv beta iota.
  - destruct (truthy (opt_chain (opt_chain body "data") "token")) eqn:Ht.
    + rewrite (get_prop_defined _ _ (opt_chain_truthy_defined _ _ Ht)).
      eexists. reflexivity.
    + eexists. reflexivity.
  - rewrite Hs. eexists. reflexivity.
Qed.

(** C1, as the code has it.  On a 2xx response with a body, [login]
    returns the upstream body unchanged to its caller, the token member
    included, and the REST route [POST /auth/login], given a username and
    a password, sends that same body with status 200. *)
Theorem login_returns_upstream_body
        (credentials : jval) (w : world) (st : Z) (body : jval) :
  answer upstream (Login credentials) w = Responded st body ->
  validateStatus st = true ->
  nullish body = false ->
  fst (login upstream credentials w) = inl body
  /\ (truthy (opt_chain credentials "username") = true ->
      truthy (opt_chain credentials "password") = true ->
      fst (post_auth_login upstream credentials w) = inl (res_json body)).
Proof.
  intros Hup H2xx Hbody.
  destruct (login_2xx _ _ _ _ Hup H2xx Hbody) as (w' & Hrun).
  split.
  - rewrite Hrun. reflexivity.
  - intros Hu Hp.
    pose proof (opt_chain_truthy_defined _ _ Hu) as Hc.
    unfold post_auth_login. unfold_monad.
    rewrite !(get_prop_defined _ _ Hc). unfold js_not. rewrite Hu, Hp.
    cbn [negb]. rewrite Hrun. reflexivity.
Qed.

(** Whatever names a string in the login envelope names it in the user
    record or in the envelope's fixed text. *)
Lemma login_envelope_mentions (needle : string) (user : jval) :
  mentions needle (login_envelope user)
  = mentions needle user || mentions needle (login_envelope JUndefined).
Proof.
  unfold login_envelope. cbn [mentions existsb].
  repeat match goal with
         | |- context [occurs ?a ?b] => destruct (occurs a b)
         end;
    destruct (mentions needle user); reflexivity.
Qed.

(** C2, as the code has it.  When the login response carries a token, the
    [eos_login] handler returns the success envelope whose data hold the
    upstream user record unchanged and ["***"] as token.  The token's
    value is not copied: a string occurs in the result only if it occurs
    in the user record or in the envelope's fixed text. *)
Theorem eos_login_replaces_token_field
        (args : jval) (w : world) (st : Z) (body : jval) :
  answer upstream (Login args) w = Responded st body ->
  validateStatus st = true ->
  truthy (opt_chain (opt_chain body "data") "token") = true ->
  fst (handler (getLoginTool upstream) args w)
  = inl (login_envelope (opt_chain (opt_chain body "data") "user"))
  /\ (forall needle,
         mentions needle (login_envelope (opt_chain (opt_chain body "data") "user")) = true ->
         mentions needle (opt_chain (opt_chain body "data") "user") = true
         \/ mentions needle (login_envelope JUndefined) = true).
Proof.
  intros Hup H2xx Ht.
  assert (Hbody : nullish body = false).
  { destruct (nullish body) eqn:E; [|reflexivity].
    rewrite (opt_chain_nullish body "data" E) in Ht. discriminate. }
  destruct (login_2xx _ _ _ _ Hup H2xx Hbody) as (w' & Hrun).
  split.
  - cbn [handler getLoginTool]. unfold_monad.
    rewrite Hrun, !(get_prop_defined _ _ Hbody), Ht. reflexivity.
  - intros needle H. rewrite login_envelope_mentions in H.
    apply orb_true_iff in H. exact H.
Qed.

End LoginClaims.

(** C1, counterexample.  For the login response of the spec's example,
    [login] returns a payload whose token member is the raw ["abc"], not
    a placeholder, and [POST /auth/login] sends that payload. *)
Lemma login_exposes_raw_token :
  fst (login up_login credentials0 w0) = inl login_body /\
  opt_chain (opt_chain login_body "data") "token" = JStr "abc" /\
  fst (post_auth_login up_login credentials0 w0) = inl (res_json login_body) /\
  JStr "abc" <> JStr "***".
Proof.
  repeat split; discriminate.
Qed.

Lemma login_returns_upstream_body_witness :
  fst (login up_login credentials0 w0) = inl login_body
  /\ (truthy (opt_chain credentials0 "username") = true ->
      truthy (opt_chain credentials0 "password") = true ->
      fst (post_auth_login up_login credentials0 w0) = inl (res_json login_body)).
Proof.
  apply (login_returns_upstream_body up_login credentials0 w0 200 login_body);
    reflexivity.
Defined.

(** C2, counterexample.  When the user record of the response repeats the
    token, the [eos_login] result has ["***"] as token member and still
    contains the raw ["abc"], inside the user record passed through. *)
Lemma eos_login_result_can_contain_token :
  exists result,
    fst (handler (getLoginTool up_login_echo) credentials0 w0) = inl result /\
    opt_chain (opt_chain login_body_echo "data") "token" = JStr "abc" /\
    opt_chain (opt_chain result "data") "token" = JStr "***" /\
    mentions "abc" result = true.
Proof.
  eexists. repeat split.
Qed.

Lemma eos_login_replaces_token_field_witness :
  fst (handler (getLoginTool up_login) credentials0 w0) = inl (login_envelope user0).
Proof.
  apply (proj1 (eos_login_replaces_token_field up_login credentials0 w0 200 login_body
                  eq_refl eq_refl eq_refl)).
Defined.

(* ================================================================== *)
(** ** The registry's handlers and the REST routes *)
(* ================================================================== *)

Section RegistryClaims.

Variable upstream : list request -> request -> outcome.
Variable now : string.
Variable stringify : jval -> string.

Ltac each_tool H :=
  cbn [getTools In] in H;
  repeat (destruct H as [H | H]; [subst|]); [..|contradiction].

(** A handler leaves the Adapter and the log as its one Adapter call
    left them. *)
Lemma handler_world (tool : MCPTool) (args : jval) (c : method_call) (w : world) :
  In tool (getTools upstream now) ->
  adapter_call (name tool) args = Some c ->
  snd (handler tool args w) = snd (invoke upstream c w).
Proof.
  intros Hin Hc. each_tool Hin; cbn in Hc;
    try (destruct (nullish args) eqn:Hargs; [discriminate|]);
    try (destruct (to_string (opt_chain args "userId")) as [id | thrown] eqn:Hid;
         [|discriminate]);
    injection Hc as <-; cbn [handler getLoginTool getCurrentUserTool getUsersTool
      getInviteUserTool getUpdateUserStatusTool getDeleteUserTool getHealthCheckTool invoke];
    unfold try_catch, bind, ret, lift;
    rewrite ?(get_prop_defined _ _ Hargs);
    rewrite ?(updateUserStatus_text upstream _ _ _ Hid), ?(deleteUser_text upstream _ _ Hid);
    repeat (break_match; cbn [snd]); reflexivity.
Qed.

(** Every handler returns: whatever its [try] block throws is turned into
    an envelope by its [catch] block. *)
Lemma handler_returns (tool : MCPTool) (args : jval) (w : world) :
  In tool (getTools upstream now) ->
  exists result, fst (handler tool args w) = inl result.
Proof.
  intros Hin.
  each_tool Hin;
    cbn [handler getLoginTool getCurrentUserTool getUsersTool getInviteUserTool
           getUpdateUserStatusTool getDeleteUserTool getHealthCheckTool];
    unfold try_catch, ret;
    match goal with
    | |- context [match ?m w with _ => _ end] => destruct (m w) as [[v | e] w1]
    end;
    eexists; reflexivity.
Qed.

(** Names are unique in the registry: looking a registered tool up by its
    name finds that tool. *)
Lemma registered_tool_found (tool : MCPTool) :
  In tool (getTools upstream now) ->
  find (fun t => (name t =? name tool)%string) (getTools upstream now) = Some tool.
Proof.
  intros Hin. each_tool Hin; reflexivity.
Qed.

(** The dispatcher answers a call of a registered tool with the handler's
    envelope as text, and raises [TOOL_NOT_FOUND] for any other name. *)
Lemma callTool_registered (tool : MCPTool) (args : jval) (w : world) :
  In tool (getTools upstream now) ->
  exists result,
    fst (handler tool args w) = inl result /\
    fst (callTool upstream now stringify (name tool) args w)
    = inl (JObj [("content",
                  JArr [JObj [("type", JStr "text");
                              ("text", JStr (stringify result))]])]).
Proof.
  intros Hin. destruct (handler_returns tool args w Hin) as (result & Hres).
  exists result. split; [exact Hres|].
  unfold callTool. rewrite (registered_tool_found tool Hin).
  unfold try_catch, bind, ret.
  destruct (handler tool args w) as [[v | e] w1]; cbn [fst] in *.
  - injection Hres as ->. reflexivity.
  - discriminate.
Qed.

Lemma callTool_unknown (name' : string) (args : jval) (w : world) :
  find (fun t => (name t =? name')%string) (getTools upstream now) = None ->
  callTool upstream now stringify name' args w
  = (inr (MCPError ("Tool '" ++ name' ++ "' not found") "TOOL_NOT_FOUND" JUndefined), w).
Proof.
  intros Hnone. unfold callTool. rewrite Hnone. reflexivity.
Qed.



(** C4, as the code has it.  No handler of the registry raises.  When the
    Adapter call of a handler raises an [EOSApiError], the handler
    returns [{success: false, message, error}] where [message] is the
    error's message (the handler's own fallback text when it is empty)
    and [error] is the error's status code when that is not 0, and 500
    when it is 0. *)
Theorem handler_envelopes_upstream_error (tool : MCPTool) :
  In tool (getTools upstream now) ->
  exists fallback,
    (forall args w, exists result, fst (handler tool args w) = inl result)
    /\ (forall args c w w' message code response,
           adapter_call (name tool) args = Some c ->
           invoke upstream c w = (inr (EOSApiError message code response), w') ->
           handler tool args w
           = (inl (JObj [("success", JBool false);
                         ("message", JStr (if (message =? "")%string
                                           then fallback else message));
                         ("error", JNum (if code =? 0 then 500 else code))]),
              w')).
Proof.
  intros Hin.
  pose proof (fun args w => handler_returns tool args w Hin) as Hreturns.
  each_tool Hin;
    (eexists; split;
     [ exact Hreturns
     | intros args c w w' message code response Hc Hrun;
       cbn in Hc;
       try (destruct (nullish args) eqn:Hargs; [discriminate|]);
       try (destruct (to_string (opt_chain args "userId")) as [id | thrown] eqn:Hid;
            [|discriminate]);
       injection Hc as <-;
       cbn [handler getLoginTool getCurrentUserTool getUsersTool getInviteUserTool
              getUpdateUserStatusTool getDeleteUserTool getHealthCheckTool invoke] in *;
       unfold try_catch, bind, ret, lift in *;
       rewrite ?(get_prop_defined _ _ Hargs);
       rewrite ?(updateUserStatus_text upstream _ _ _ Hid),
         ?(deleteUser_text upstream _ _ Hid) ]).
  all: try (rewrite Hrun; unfold failure, js_or; cbn [exn_message exn_statusCode truthy];
            destruct (message =? "")%string; destruct (code =? 0); reflexivity).
  (* the health check: its Adapter call does not raise *)
  destruct (healthCheck upstream w) as [[b | e] w1]; [discriminate|].
  injection Hrun as -> ->.
  unfold failure, js_or; cbn [exn_message exn_statusCode truthy].
  destruct (message =? "")%string; destruct (code =? 0); reflexivity.
Qed.







End RegistryClaims.

(** C4, counterexample.  When the network gives no response, [getUsers]
    raises an [EOSApiError] with status code 0 and the [eos_get_users]
    handler returns an envelope whose [error] member is 500, not 0. *)
Lemma handler_reports_500_for_status_0 :
  fst (getUsers up_down w0) = inr (EOSApiError "Network Error" 0 JUndefined) /\
  exists result,
    fst (handler (getUsersTool up_down) JUndefined w0) = inl result /\
    opt_chain result "error" = JNum 500 /\
    opt_chain result "error" <> JNum 0.
Proof.
  split; [reflexivity|]. eexists. repeat split. discriminate.
Qed.

Lemma handler_envelopes_upstream_error_witness :
  handler (getLoginTool up_401) credentials0 w0
  = (inl (JObj [("success", JBool false);
                ("message", JStr "Invalid credentials");
                ("error", JNum 401)]),
     snd (login up_401 credentials0 w0)).
Proof.
  destruct (handler_envelopes_upstream_error up_401 now0 (getLoginTool up_401)
              (or_introl eq_refl)) as (fallback & _ & H).
  apply (H credentials0 (Login credentials0) w0 _ "Invalid credentials" 401
           (JObj [("success", JBool false); ("message", JStr "Invalid credentials")])
           eq_refl eq_refl).
Defined.





(* ================================================================== *)
(** ** Further properties of the Adapter *)
(* ================================================================== *)

Section AdapterProperties.

Variable upstream : list request -> request -> outcome.

Lemma stored_is_truthy (o : outcome) (token : jval) :
  stored_by_login o = Some token -> truthy token = true.
Proof.
  destruct o as [st body | msg]; [|discriminate]. unfold stored_by_login.
  destruct (validateStatus st); [|discriminate].
  destruct (truthy (opt_chain body "success")); [|discriminate].
  destruct (truthy (opt_chain (opt_chain body "data") "token")) eqn:Ht; [|discriminate].
  intros [= <-]. exact Ht.
Qed.

Lemma sent_authorization (c : method_call) (w : world) :
  req_authorization (sent c w)
  = if truthy (authToken (service w)) && negb (to_string_throws (authToken (service w)))
    then Some ("Bearer " ++ js_to_string (authToken (service w)))
    else None.
Proof.
  unfold sent, logged, request_interceptor, to_string.
  destruct (truthy _); destruct (to_string_throws _); destruct c; reflexivity.
Qed.

(** X1.  The bearer header follows the stored token across calls: after a
    login that stored a token that has a text (a string, as the upstream
    declares it, or any other value ToString accepts), the request of
    whatever method is called next leaves the request interceptor with
    [Bearer] followed by that text; after a login that stored none, the
    next request carries what it would have carried before the login;
    after [clearAuthToken] it carries no [Authorization] header. *)
Theorem bearer_header_follows_token (credentials : jval) (c : method_call) (w : world) :
  (forall token,
      stored_by_login (answer upstream (Login credentials) w) = Some token ->
      to_string_throws token = false ->
      req_authorization (sent c (snd (login upstream credentials w)))
      = Some ("Bearer " ++ js_to_string token))
  /\ (stored_by_login (answer upstream (Login credentials) w) = None ->
      req_authorization (sent c (snd (login upstream credentials w)))
      = req_authorization (sent c w))
  /\ req_authorization (sent c (snd (clearAuthToken w))) = None.
Proof.
  repeat apply conj.
  - intros token Hst Htext.
    destruct (login_stores upstream _ _ _ Hst) as (st & body & _ & Hrun).
    rewrite sent_authorization, Hrun. cbn [snd service authToken].
    rewrite (stored_is_truthy _ _ Hst), Htext. reflexivity.
  - intros Hst. rewrite !sent_authorization.
    rewrite (login_keeps upstream _ _ Hst). reflexivity.
  - rewrite sent_authorization. reflexivity.
Qed.

(** X2.  A 2xx response whose body is [null] or [undefined]: the methods
    that read the body ([login], [getCurrentUser], [getUsers]) raise
    their own [EOSApiError] with status code 500; the methods that only
    hand the body on ([inviteUser], [updateUserStatus], [deleteUser])
    return it; [healthCheck] returns [true]. *)
Theorem null_body_on_2xx (c : method_call) (w : world) (st : Z) (body : jval) :
  answer upstream c w = Responded st body ->
  validateStatus st = true ->
  nullish body = true ->
  fst (invoke upstream c w)
  = match c with
    | Login _ => inr (EOSApiError "Login failed" 500 JUndefined)
    | GetCurrentUser => inr (EOSApiError "Failed to get user profile" 500 JUndefined)
    | GetUsers => inr (EOSApiError "Failed to get users" 500 JUndefined)
    | InviteUser _ | UpdateUserStatus _ _ | DeleteUser _ => inl body
    | HealthCheck => inl (JBool true)
    end.
Proof.
  unfold answer, sent. intros Hup H2xx Hbody.
  destruct c; cbn [invoke config_of] in *;
    unfold login, getCurrentUser, getUsers, inviteUser, updateUserStatus, deleteUser,
      healthCheck; unfold_monad;
    rewrite ?to_string_string; cbv beta iota; rewrite api_request_run, Hup, (dispatch_2xx _ _ H2xx); cbn [data];
    destruct body; try discriminate; reflexivity.
Qed.

(** X3.  On a 2xx response with a body, [getUsers] returns the body's
    [data] member when it is truthy and the empty array otherwise: a
    [data] that is [null], [false], [0] or the empty string gives the
    empty array, like a missing one. *)
Theorem getUsers_data_or_empty (w : world) (st : Z) (body : jval) :
  answer upstream GetUsers w = Responded st body ->
  validateStatus st = true ->
  nullish body = false ->
  fst (getUsers upstream w)
  = inl (if truthy (opt_chain body "data") then opt_chain body "data" else JArr []).
Proof.
  unfold answer, sent. simpl config_of. intros Hup H2xx Hbody.
  unfold getUsers. unfold_monad.
  rewrite api_request_run, Hup, (dispatch_2xx _ _ H2xx). cbn [data].
  rewrite (get_prop_defined _ _ Hbody). reflexivity.
Qed.

End AdapterProperties.

Lemma bearer_header_follows_token_witness :
  req_authorization (sent GetUsers (snd (login up_login credentials0 w0)))
  = Some "Bearer abc".
Proof.
  apply (proj1 (bearer_header_follows_token up_login credentials0 GetUsers w0)
               (JStr "abc"));
    reflexivity.
Defined.

Lemma null_body_on_2xx_witness :
  fst (invoke (always (Responded 200 JNull)) GetCurrentUser w0)
  = inr (EOSApiError "Failed to get user profile" 500 JUndefined).
Proof.
  apply (null_body_on_2xx (always (Responded 200 JNull)) GetCurrentUser w0 200 JNull);
    reflexivity.
Defined.

Lemma getUsers_data_or_empty_witness :
  fst (getUsers (always (Responded 200 (JObj [("data", JNull)]))) w0) = inl (JArr []).
Proof.
  apply (getUsers_data_or_empty (always (Responded 200 (JObj [("data", JNull)]))) w0 200
           (JObj [("data", JNull)]));
    reflexivity.
Defined.

(* ================================================================== *)
(** ** Further properties of the registry and the dispatcher *)
(* ================================================================== *)

Section RegistryProperties.

Variable upstream : list request -> request -> outcome.
Variable now : string.
Variable stringify : jval -> string.

(** X4.  The dispatcher raises for one reason only: a name that no tool
    of the registry has.  It then raises [TOOL_NOT_FOUND] naming the
    tool, and neither the Adapter nor the upstream has been touched.  No
    call of a registered tool raises, so [TOOL_EXECUTION_ERROR] is never
    raised. *)
Theorem callTool_raises_only_not_found
        (name' : string) (args : jval) (w : world) (e : exn) :
  fst (callTool upstream now stringify name' args w) = inr e ->
  e = MCPError ("Tool '" ++ name' ++ "' not found") "TOOL_NOT_FOUND" JUndefined
  /\ snd (callTool upstream now stringify name' args w) = w
  /\ ~ In name' (map name (getTools upstream now)).
Proof.
  unfold callTool.
  destruct (find _ (getTools upstream now)) as [tool |] eqn:Hfind.
  - apply find_some in Hfind. destruct Hfind as [Hin _].
    destruct (handler_returns upstream now tool args w Hin) as (result & Hres).
    unfold try_catch, bind, ret.
    destruct (handler tool args w) as [[v | e'] w1]; cbn [fst] in *; discriminate.
  - cbn [throw fst snd]. intros [= <-]. repeat split.
    intros Hname. apply in_map_iff in Hname. destruct Hname as (tool & Hn & Hin).
    pose proof (find_none _ _ Hfind tool Hin) as Hneq. cbv beta in Hneq.
    rewrite Hn, String.eqb_refl in Hneq. discriminate.
Qed.

(** X5.  The listing and the dispatcher agree: every entry listed by
    [listTools] is the name, description and input schema of a tool of
    the registry, and a call of that name runs the tool's handler and
    returns its envelope as text. *)
Theorem listed_tools_are_callable (entries : list jval) (entry : jval) :
  opt_chain (listTools upstream now) "tools" = JArr entries ->
  In entry entries ->
  exists tool,
    In tool (getTools upstream now)
    /\ entry = listed tool
    /\ forall args w,
        exists result,
          fst (handler tool args w) = inl result /\
          fst (callTool upstream now stringify (name tool) args w)
          = inl (JObj [("content",
                        JArr [JObj [("type", JStr "text");
                                    ("text", JStr (stringify result))]])]).
Proof.
  intros Hlist Hin.
  assert (Hall : opt_chain (listTools upstream now) "tools"
                 = JArr (map listed (getTools upstream now))) by reflexivity.
  assert (Hentries : entries = map listed (getTools upstream now)) by congruence.
  rewrite Hentries in Hin. clear Hlist Hall Hentries.
  apply in_map_iff in Hin. destruct Hin as (tool & <- & Hin).
  exists tool. repeat split; [exact Hin|].
  intros args w. apply callTool_registered, Hin.
Qed.

(** X6.  The [eos_health_check] handler reports [success: true] whatever
    the upstream does; an upstream that is down or answers outside 2xx
    shows only in the message and in [data.status]. *)
Theorem health_tool_always_succeeds (args : jval) (w : world) :
  fst (handler (getHealthCheckTool upstream now) args w)
  = inl (let healthy := negb (transport_failure (answer upstream HealthCheck w)) in
         JObj [("success", JBool true);
               ("message", JStr (if healthy then "EOS API is healthy"
                                 else "EOS API is not responding"));
               ("data", JObj [("status", JStr (if healthy then "healthy" else "unhealthy"));
                              ("timestamp", JStr now)])]).
Proof.
  cbn [handler getHealthCheckTool]. unfold try_catch, bind, ret.
  rewrite healthCheck_run. reflexivity.
Qed.

(** X7.  When the 2xx response to [GET /users] carries an array as
    [data], the [eos_get_users] handler returns that array and a message
    that counts its items. *)
Theorem eos_get_users_counts
        (args : jval) (w : world) (st : Z) (body : jval) (users : list jval) :
  answer upstream GetUsers w = Responded st body ->
  validateStatus st = true ->
  opt_chain body "data" = JArr users ->
  fst (handler (getUsersTool upstream) args w)
  = inl (JObj [("success", JBool true);
               ("message",
                JStr ("Retrieved " ++ string_of_Z (Z.of_nat (List.length users)) ++ " users"));
               ("data", JArr users)]).
Proof.
  unfold answer, sent. simpl config_of. intros Hup H2xx Hdata.
  assert (Hbody : nullish body = false).
  { destruct (nullish body) eqn:E; [|reflexivity].
    rewrite (opt_chain_nullish body "data" E) in Hdata. discriminate. }
  cbn [handler getUsersTool]. unfold getUsers. unfold_monad.
  rewrite api_request_run, Hup, (dispatch_2xx _ _ H2xx). cbn [data].
  rewrite (get_prop_defined _ _ Hbody), Hdata. reflexivity.
Qed.

(** X8.  The [eos_login] handler reports [success: true] for every 2xx
    response with a body, also when the body's own [success] is falsy or
    no token came: the token member is then [undefined], and with a falsy
    [success] the Adapter stores nothing. *)
Theorem eos_login_succeeds_on_2xx (args : jval) (w : world) (st : Z) (body : jval) :
  answer upstream (Login args) w = Responded st body ->
  validateStatus st = true ->
  nullish body = false ->
  fst (handler (getLoginTool upstream) args w)
  = inl (JObj [("success", JBool true);
               ("message", JStr "Login successful");
               ("data",
                JObj [("user", opt_chain (opt_chain body "data") "user");
                      ("token", if truthy (opt_chain (opt_chain body "data") "token")
                                then JStr "***" else JUndefined)])])
  /\ (truthy (opt_chain body "success") = false ->
      service (snd (handler (getLoginTool upstream) args w)) = service w).
Proof.
  intros Hup H2xx Hbody.
  destruct (login_2xx upstream _ _ _ _ Hup H2xx Hbody) as (w' & Hrun).
  split.
  - cbn [handler getLoginTool]. unfold_monad.
    rewrite Hrun, !(get_prop_defined _ _ Hbody). reflexivity.
  - intros Hs.
    assert (Hkeep : service (snd (login upstream args w)) = service w).
    { apply login_keeps. rewrite Hup. unfold stored_by_login.
      rewrite H2xx, Hs. reflexivity. }
    rewrite Hrun in Hkeep. cbn [handler getLoginTool]. unfold_monad.
    rewrite Hrun, !(get_prop_defined _ _ Hbody). exact Hkeep.
Qed.

(** X9.  The handlers of [eos_invite_user], [eos_update_user_status] and
    [eos_delete_user] report [success: true] with the upstream body as
    [data] for every 2xx response, whatever the body is.  The message of
    the status update repeats the [status] argument as given; when that
    argument has no text the handler reports a failure with error 500,
    although the upstream has accepted the update. *)
Theorem write_handlers_wrap_body
        (args : jval) (userId : string) (w : world) (st : Z) (body : jval) :
  validateStatus st = true ->
  (answer upstream (InviteUser args) w = Responded st body ->
   fst (handler (getInviteUserTool upstream) args w)
   = inl (JObj [("success", JBool true);
                ("message", JStr "User invited successfully");
                ("data", body)]))
  /\ (nullish args = false ->
      to_string (opt_chain args "userId") = inl userId ->
      answer upstream (UpdateUserStatus userId (opt_chain args "status")) w
      = Responded st body ->
      fst (handler (getUpdateUserStatusTool upstream) args w)
      = inl (if to_string_throws (opt_chain args "status")
             then JObj [("success", JBool false);
                        ("message", JStr "Cannot convert object to primitive value");
                        ("error", JNum 500)]
             else JObj [("success", JBool true);
                        ("message",
                         JStr ("User status updated to "
                               ++ js_to_string (opt_chain args "status")));
                        ("data", body)]))
  /\ (nullish args = false ->
      to_string (opt_chain args "userId") = inl userId ->
      answer upstream (DeleteUser userId) w = Responded st body ->
      fst (handler (getDeleteUserTool upstream) args w)
      = inl (JObj [("success", JBool true);
                   ("message", JStr "User deleted successfully");
                   ("data", body)])).
Proof.
  intros H2xx. repeat apply conj.
  - intros Hup. cbn [handler getInviteUserTool]. unfold try_catch, bind, ret.
    pose proof (write_call_2xx upstream (InviteUser args) w st body I Hup H2xx) as Hrun.
    cbn [invoke] in Hrun. rewrite Hrun. reflexivity.
  - intros Hargs Hid Hup. cbn [handler getUpdateUserStatusTool].
    unfold try_catch, bind, ret, lift.
    pose proof (write_call_2xx upstream
                  (UpdateUserStatus userId (opt_chain args "status"))
                  w st body I Hup H2xx) as Hrun.
    cbn [invoke] in Hrun.
    rewrite !(get_prop_defined _ _ Hargs), (updateUserStatus_text upstream _ _ _ Hid), Hrun.
    unfold to_string. destruct (to_string_throws (opt_chain args "status")); reflexivity.
  - intros Hargs Hid Hup. cbn [handler getDeleteUserTool].
    unfold try_catch, bind, ret, lift.
    pose proof (write_call_2xx upstream (DeleteUser userId) w st body I Hup H2xx) as Hrun.
    cbn [invoke] in Hrun.
    rewrite !(get_prop_defined _ _ Hargs), (deleteUser_text upstream _ _ Hid), Hrun.
    reflexivity.
Qed.

(** X10.  Whatever was thrown, the envelope a [catch] block builds has a
    message that is a non-empty string and an error code that is a
    number other than 0. *)
Theorem failure_envelope_is_filled (fallback : string) (error : exn) :
  fallback <> "" ->
  exists message code,
    failure fallback error
    = JObj [("success", JBool false); ("message", JStr message); ("error", JNum code)]
    /\ message <> "" /\ code <> 0.
Proof.
  intros Hfb. unfold failure, js_or.
  assert (Hmsg : forall m, exists message,
             (if truthy (JStr m) then JStr m else JStr fallback) = JStr message
             /\ message <> "").
  { intros m. cbn [truthy]. destruct (String.eqb_spec m ""); cbn [negb]; eauto. }
  assert (Hcode : exists code,
             (if truthy (exn_statusCode error) then exn_statusCode error else JNum 500)
             = JNum code /\ code <> 0).
  { destruct error; cbn [exn_statusCode truthy]; try (exists 500; split; [reflexivity | lia]).
    destruct (Z.eqb_spec statusCode 0); cbn [negb].
    - exists 500. split; [reflexivity | lia].
    - exists statusCode. split; [reflexivity | assumption]. }
  destruct Hcode as (code & -> & Hc).
  assert (Hm : exists m, exn_message error = JStr m) by (destruct error; eexists; reflexivity).
  destruct Hm as (m & ->). destruct (Hmsg m) as (message & -> & Hne).
  exists message, code. repeat split; assumption.
Qed.

End RegistryProperties.

(* ================================================================== *)
(** ** Further properties of the REST routes *)
(* ================================================================== *)

Section RestProperties.

Variable upstream : list request -> request -> outcome.
Variable now : string.

Lemma destructure_defined (v : jval) (k source : string) :
  nullish v = false -> destructure v k source = inl (opt_chain v k).
Proof.
  intros Hv. unfold destructure. rewrite (get_prop_defined _ _ Hv).
  destruct v; try discriminate; reflexivity.
Qed.

Lemma is_status_truthy (v : jval) : is_status v = true -> truthy v = true.
Proof.
  destruct v; try discriminate. cbn [is_status truthy].
  destruct (String.eqb_spec s ""); [subst; discriminate | reflexivity].
Qed.



(** X12.  No route raises: every request is answered, and the status of
    the answer is a number other than 0, also when the Adapter reported
    the status code 0 of a network failure. *)
Theorem rest_always_answers (r : rest_request) (w : world) :
  exists answer code,
    fst (serve upstream now r w) = inl answer
    /\ res_status answer = JNum code
    /\ code <> 0.
Proof.
  assert (Hfail : forall fallback error,
             exists code, res_status (res_failure fallback error) = JNum code /\ code <> 0).
  { intros fallback error. unfold res_failure, js_or. cbn [res_status].
    destruct error; cbn [exn_statusCode truthy]; try (exists 500; split; [reflexivity | lia]).
    destruct (Z.eqb_spec statusCode 0); cbn [negb].
    - exists 500. split; [reflexivity | lia].
    - exists statusCode. split; [reflexivity | assumption]. }
  destruct r; cbn [serve];
    unfold get_health, post_auth_login, get_users_current, get_users, post_users_invite,
      patch_users_status, delete_users, try_catch, bind, ret, lift;
    try rewrite healthCheck_run;
    repeat (break_match; cbn [fst]);
    lazymatch goal with
    | |- context [res_failure ?fallback ?error] =>
        destruct (Hfail fallback error) as (code & Hcode & Hnonzero);
        eexists; exists code; repeat split; [exact Hcode | exact Hnonzero]
    | |- _ =>
        eexists; eexists; cbn [res_json res_status];
        repeat split; discriminate
    end.
Qed.

End RestProperties.

Section RestAnswers.

Variable upstream : list request -> request -> outcome.
Variable now : string.

(** X13.  When the Adapter call of a route raises an [EOSApiError], the
    route answers with the error's status code as HTTP status, and with
    500 when that code is 0; the body is the failure envelope with the
    same number as [error]. *)
Theorem rest_answers_with_upstream_status (r : rest_request) :
  exists fallback,
    forall c w w' message code response,
      route_call r = Some c ->
      invoke upstream c w = (inr (EOSApiError message code response), w') ->
      serve upstream now r w
      = (inl (mkReply
                (JNum (if code =? 0 then 500 else code))
                (JObj [("success", JBool false);
                       ("message", JStr (if (message =? "")%string
                                         then fallback else message));
                       ("error", JNum (if code =? 0 then 500 else code))])),
         w').
Proof.
  assert (Hfail : forall fallback message code response,
             res_failure fallback (EOSApiError message code response)
             = mkReply
                 (JNum (if code =? 0 then 500 else code))
                 (JObj [("success", JBool false);
                        ("message", JStr (if (message =? "")%string
                                          then fallback else message));
                        ("error", JNum (if code =? 0 then 500 else code))])).
  { intros. unfold res_failure, failure, js_or. cbn [exn_message exn_statusCode truthy].
    destruct (message =? "")%string; destruct (code =? 0); reflexivity. }
  destruct r; cbn [serve route_call].
  - exists "". intros c w w' message code response [= <-] Hrun.
    cbn [invoke] in Hrun. unfold bind in Hrun. rewrite healthCheck_run in Hrun.
    discriminate.
  - exists "Login failed". intros c w w' message code response Hc Hrun.
    destruct (truthy (opt_chain body "username")) eqn:Hu; [|discriminate].
    destruct (truthy (opt_chain body "password")) eqn:Hp; [|discriminate].
    injection Hc as <-. cbn [invoke] in Hrun.
    pose proof (opt_chain_truthy_defined _ _ Hu) as Hbody.
    unfold post_auth_login, js_not, try_catch, bind, ret, lift.
    rewrite !(get_prop_defined _ _ Hbody), Hu, Hp. cbn [negb].
    rewrite Hrun, Hfail. reflexivity.
  - exists "Failed to get current user". intros c w w' message code response [= <-] Hrun.
    cbn [invoke] in Hrun. unfold get_users_current, try_catch, bind, ret.
    rewrite Hrun, Hfail. reflexivity.
  - exists "Failed to get users". intros c w w' message code response [= <-] Hrun.
    cbn [invoke] in Hrun. unfold get_users, try_catch, bind, ret.
    rewrite Hrun, Hfail. reflexivity.
  - exists "Failed to invite user". intros c w w' message code response Hc Hrun.
    destruct (truthy (opt_chain body "email")) eqn:Hu; [|discriminate].
    destruct (truthy (opt_chain body "role")) eqn:Hp; [|discriminate].
    injection Hc as <-. cbn [invoke] in Hrun.
    pose proof (opt_chain_truthy_defined _ _ Hu) as Hbody.
    unfold post_users_invite, js_not, try_catch, bind, ret, lift.
    rewrite !(get_prop_defined _ _ Hbody), Hu, Hp. cbn [negb].
    rewrite Hrun, Hfail. reflexivity.
  - exists "Failed to update user status". intros c w w' message code response Hc Hrun.
    destruct (is_status (opt_chain body "status")) eqn:Hs; [|discriminate].
    injection Hc as <-. cbn [invoke] in Hrun.
    assert (Hbody : nullish body = false).
    { destruct (nullish body) eqn:E; [|reflexivity].
      rewrite (opt_chain_nullish _ _ E) in Hs. discriminate. }
    unfold patch_users_status, js_not, try_catch, bind, ret, lift.
    rewrite (destructure_defined _ _ _ Hbody), Hs, (is_status_truthy _ Hs).
    cbn [negb orb]. rewrite Hrun, Hfail. reflexivity.
  - exists "Failed to delete user". intros c w w' message code response [= <-] Hrun.
    cbn [invoke] in Hrun. unfold delete_users, try_catch, bind, ret.
    rewrite Hrun, Hfail. reflexivity.
  - exists "". intros c w w' message code response Hc. discriminate.
Qed.

(** X14.  [GET /health] answers 200 with [status: 'ok'] whatever the
    upstream does; an upstream that is down or answers outside 2xx shows
    only as [eosApi: 'disconnected']. *)
Theorem get_health_always_ok (w : world) :
  fst (get_health upstream now w)
  = inl (mkReply
           (JNum 200)
           (JObj [("status", JStr "ok");
                  ("timestamp", JStr now);
                  ("eosApi",
                   JStr (if negb (transport_failure (answer upstream HealthCheck w))
                         then "connected" else "disconnected"))])).
Proof.
  unfold get_health, try_catch, bind, ret. rewrite healthCheck_run. reflexivity.
Qed.

(** X15.  An invitation, a status update and a deletion that pass the
    checks of their route are answered with status 200 and the upstream
    body for every 2xx response of the upstream, whichever 2xx status it
    answered with and whatever the body is. *)
Theorem rest_write_routes_answer_200
        (r : rest_request) (c : method_call) (w : world) (st : Z) (body : jval) :
  match r with
  | PostUsersInvite _ | PatchUsersStatus _ _ | DeleteUsers _ => True
  | _ => False
  end ->
  route_call r = Some c ->
  answer upstream c w = Responded st body ->
  validateStatus st = true ->
  fst (serve upstream now r w) = inl (mkReply (JNum 200) body).
Proof.
  intros Hr Hc Hup H2xx.
  destruct r; try contradiction; cbn [serve route_call] in *.
  - destruct (truthy (opt_chain body0 "email")) eqn:Hu; [|discriminate].
    destruct (truthy (opt_chain body0 "role")) eqn:Hp; [|discriminate].
    injection Hc as <-.
    pose proof (opt_chain_truthy_defined _ _ Hu) as Hbody.
    pose proof (write_call_2xx upstream (InviteUser body0) w st body I Hup H2xx) as Hrun.
    cbn [invoke] in Hrun.
    unfold post_users_invite, js_not, try_catch, bind, ret, lift.
    rewrite !(get_prop_defined _ _ Hbody), Hu, Hp. cbn [negb].
    rewrite Hrun. reflexivity.
  - destruct (is_status (opt_chain body0 "status")) eqn:Hs; [|discriminate].
    injection Hc as <-.
    assert (Hbody : nullish body0 = false).
    { destruct (nullish body0) eqn:E; [|reflexivity].
      rewrite (opt_chain_nullish _ _ E) in Hs. discriminate. }
    pose proof (write_call_2xx upstream
                  (UpdateUserStatus userId (opt_chain body0 "status"))
                  w st body I Hup H2xx) as Hrun.
    cbn [invoke] in Hrun.
    unfold patch_users_status, js_not, try_catch, bind, ret, lift.
    rewrite (destructure_defined _ _ _ Hbody), Hs, (is_status_truthy _ Hs).
    cbn [negb orb]. rewrite Hrun. reflexivity.
  - injection Hc as <-.
    pose proof (write_call_2xx upstream (DeleteUser userId) w st body I Hup H2xx)
      as Hrun.
    cbn [invoke] in Hrun.
    unfold delete_users, try_catch, bind, ret. rewrite Hrun. reflexivity.
Qed.

End RestAnswers.

(* ================================================================== *)
(** ** The further properties at concrete inputs *)
(* ================================================================== *)

Lemma callTool_raises_only_not_found_witness :
  MCPError "Tool 'unknown' not found" "TOOL_NOT_FOUND" JUndefined
  = MCPError ("Tool '" ++ "unknown" ++ "' not found") "TOOL_NOT_FOUND" JUndefined
  /\ snd (callTool up_ok now0 js_to_string "unknown" (JObj []) w0) = w0
  /\ ~ In "unknown" (map name (getTools up_ok now0)).
Proof.
  apply (callTool_raises_only_not_found up_ok now0 js_to_string "unknown" (JObj []) w0).
  reflexivity.
Defined.

Lemma listed_tools_are_callable_witness :
  exists tool,
    In tool (getTools up_ok now0)
    /\ listed (getDeleteUserTool up_ok) = listed tool
    /\ forall args w,
        exists result,
          fst (handler tool args w) = inl result /\
          fst (callTool up_ok now0 js_to_string (name tool) args w)
          = inl (JObj [("content",
                        JArr [JObj [("type", JStr "text");
                                    ("text", JStr (js_to_string result))]])]).
Proof.
  apply (listed_tools_are_callable up_ok now0 js_to_string
           (map listed (getTools up_ok now0)) (listed (getDeleteUserTool up_ok))).
  - reflexivity.
  - cbn [getTools map In]. auto 10.
Defined.

Lemma eos_get_users_counts_witness :
  fst (handler (getUsersTool (always (Responded 200 (JObj [("data", JArr [user0; user0])]))))
               JUndefined w0)
  = inl (JObj [("success", JBool true);
               ("message", JStr "Retrieved 2 users");
               ("data", JArr [user0; user0])]).
Proof.
  apply (eos_get_users_counts
           (always (Responded 200 (JObj [("data", JArr [user0; user0])])))
           JUndefined w0 200 (JObj [("data", JArr [user0; user0])]) [user0; user0]);
    reflexivity.
Defined.

Lemma eos_login_succeeds_on_2xx_witness :
  fst (handler (getLoginTool (always (Responded 200 (JObj [("success", JBool false)]))))
               credentials0 w0)
  = inl (JObj [("success", JBool true);
               ("message", JStr "Login successful");
               ("data", JObj [("user", JUndefined); ("token", JUndefined)])]).
Proof.
  apply (proj1 (eos_login_succeeds_on_2xx
                  (always (Responded 200 (JObj [("success", JBool false)])))
                  credentials0 w0 200 (JObj [("success", JBool false)])
                  eq_refl eq_refl eq_refl)).
Defined.

Lemma write_handlers_wrap_body_witness :
  fst (handler (getUpdateUserStatusTool (always (Responded 200 (JObj [("success", JBool false)]))))
               (JObj [("userId", JNum 7); ("status", JStr "deleted")]) w0)
  = inl (JObj [("success", JBool true);
               ("message", JStr "User status updated to deleted");
               ("data", JObj [("success", JBool false)])]).
Proof.
  apply (proj1 (proj2 (write_handlers_wrap_body
                         (always (Responded 200 (JObj [("success", JBool false)])))
                         (JObj [("userId", JNum 7); ("status", JStr "deleted")])
                         "7" w0 200 (JObj [("success", JBool false)]) eq_refl))
               eq_refl eq_refl eq_refl).
Defined.

Lemma failure_envelope_is_filled_witness :
  exists message code,
    failure "Failed to get users" (EOSApiError "" 0 JUndefined)
    = JObj [("success", JBool false); ("message", JStr message); ("error", JNum code)]
    /\ message <> "" /\ code <> 0.
Proof.
  apply (failure_envelope_is_filled "Failed to get users" (EOSApiError "" 0 JUndefined)).
  discriminate.
Defined.

Lemma rest_answers_with_upstream_status_witness :
  serve up_down now0 GetUsersAll w0
  = (inl (mkReply (JNum 500)
                  (JObj [("success", JBool false);
                         ("message", JStr "Network Error");
                         ("error", JNum 500)])),
     snd (getUsers up_down w0)).
Proof.
  destruct (rest_answers_with_upstream_status up_down now0 GetUsersAll) as (fallback & H).
  apply (H GetUsers w0 _ "Network Error" 0 JUndefined eq_refl eq_refl).
Defined.

Lemma rest_write_routes_answer_200_witness :
  fst (serve (always (Responded 201 (JObj [("success", JBool true)]))) now0
             (PostUsersInvite invite_superuser) w0)
  = inl (mkReply (JNum 200) (JObj [("success", JBool true)])).
Proof.
  apply (rest_write_routes_answer_200
           (always (Responded 201 (JObj [("success", JBool true)]))) now0
           (PostUsersInvite invite_superuser) (InviteUser invite_superuser) w0 201
           (JObj [("success", JBool true)]) I eq_refl eq_refl eq_refl).
Defined.

(* ================================================================== *)
(** ** Calls without arguments, and the upstream traffic of a tool call *)
(* ================================================================== *)

Section RegistryEdges.

Variable upstream : list request -> request -> outcome.
Variable now : string.
Variable stringify : jval -> string.

(** X16.  Called without an argument object ([undefined] or [null]), the
    handlers of [eos_update_user_status] and [eos_delete_user] fail on
    their own read of [userId]: they return a failure envelope with error
    500 and the Adapter is not called. *)
Theorem handlers_without_arguments (args : jval) (w : world) :
  nullish args = true ->
  (exists message,
      handler (getUpdateUserStatusTool upstream) args w
      = (inl (JObj [("success", JBool false);
                    ("message", JStr message);
                    ("error", JNum 500)]),
         w))
  /\ (exists message,
         handler (getDeleteUserTool upstream) args w
         = (inl (JObj [("success", JBool false);
                       ("message", JStr message);
                       ("error", JNum 500)]),
            w)).
Proof.
  intros Hargs. destruct args; try discriminate; split; eexists; reflexivity.
Qed.

(** What a handler leaves behind, for every argument. *)
Lemma handler_world_total (tool : MCPTool) (args : jval) (w : world) :
  In tool (getTools upstream now) ->
  snd (handler tool args w)
  = match adapter_call (name tool) args with
    | Some c => snd (invoke upstream c w)
    | None => w
    end.
Proof.
  intros Hin. destruct (adapter_call (name tool) args) as [c |] eqn:Hc.
  - apply (handler_world upstream now tool args c w Hin Hc).
  - cbn [getTools In] in Hin.
    repeat (destruct Hin as [Hin | Hin]; [subst|]); [..|contradiction];
      cbn in Hc; try discriminate;
      (destruct (nullish args) eqn:Hargs;
       [destruct args; try discriminate; reflexivity|]);
      (destruct (to_string (opt_chain args "userId")) as [id | thrown] eqn:Hid;
       [discriminate|]);
      apply to_string_thrown in Hid;
      cbn [handler getUpdateUserStatusTool getDeleteUserTool];
      unfold try_catch, bind, ret, lift;
      rewrite !(get_prop_defined _ _ Hargs);
      rewrite ?(updateUserStatus_no_text upstream _ _ _ Hid),
        ?(deleteUser_no_text upstream _ _ Hid);
      reflexivity.
Qed.

Lemma unregistered_has_no_call (name' : string) (args : jval) :
  find (fun t => (name t =? name')%string) (getTools upstream now) = None ->
  adapter_call name' args = None.
Proof.
  intros Hfind. unfold adapter_call.
  repeat match goal with
         | |- context [(name' =? ?known)%string] =>
             destruct (String.eqb_spec name' known) as [-> | _]; [discriminate Hfind|]
         end.
  reflexivity.
Qed.

(** X17.  One tool call sends at most one request upstream: the request
    of the tool's Adapter call, and none when the name is not registered,
    when the handler fails on its own read of the arguments, or when the
    user id has no text to put into the URL. *)
Theorem callTool_upstream_traffic (name' : string) (args : jval) (w : world) :
  calls (snd (callTool upstream now stringify name' args w))
  = (calls w ++ match adapter_call name' args with
                | Some c => [sent c w]
                | None => []
                end)%list.
Proof.
  unfold callTool.
  destruct (find _ (getTools upstream now)) as [tool |] eqn:Hfind.
  - apply find_some in Hfind. destruct Hfind as [Hin Hname].
    apply String.eqb_eq in Hname. subst name'.
    assert (Hw : snd (try_catch
                        (result <- handler tool args ;;
                         ret (JObj [("content",
                                     JArr [JObj [("type", JStr "text");
                                                 ("text", JStr (stringify result))]])]))
                        (fun error =>
                           throw (MCPError
                                    (js_to_string
                                       (js_or (exn_message error)
                                              (JStr "Tool execution failed")))
                                    "TOOL_EXECUTION_ERROR"
                                    (JObj [("tool", JStr (name tool));
                                           ("error", exn_message error)]))) w)
                 = snd (handler tool args w)).
    { unfold try_catch, bind, ret, throw.
      destruct (handler tool args w) as [[v | e] w1]; reflexivity. }
    rewrite Hw, (handler_world_total tool args w Hin).
    destruct (adapter_call (name tool) args) as [c |].
    + apply invoke_calls.
    + symmetry. apply app_nil_r.
  - rewrite (unregistered_has_no_call name' args Hfind). symmetry. apply app_nil_r.
Qed.

End RegistryEdges.

Lemma handlers_without_arguments_witness :
  (exists message,
      handler (getUpdateUserStatusTool up_ok) JUndefined w0
      = (inl (JObj [("success", JBool false);
                    ("message", JStr message);
                    ("error", JNum 500)]),
         w0))
  /\ (exists message,
         handler (getDeleteUserTool up_ok) JUndefined w0
         = (inl (JObj [("success", JBool false);
                       ("message", JStr message);
                       ("error", JNum 500)]),
            w0)).
Proof.
  apply (handlers_without_arguments up_ok JUndefined w0). reflexivity.
Defined.
